(** * boltstore: a gorilla/sessions store on top of bolthold

    A shallow embedding of the session store of [src/boltstore.go] (the
    sequence-keyed store with expiry and sweeping; [src/unnamed/part_001] is
    the same code with the type renamed to [Store]) and of the older
    string-keyed store of [src/unnamed/part_000], followed by the properties
    the specification states about them.

    The libraries the Go code calls (net/http cookies, gorilla/sessions,
    gorilla/securecookie, bolthold, time, encoding/base32) are modelled by the
    small modules at the top of the file, each following the documented
    contract of the calls the store makes.  Go's [(T, error)] results are
    values of [result]; a bare [error] is an [option error]; clock readings
    and random bytes are explicit arguments. *)

From Stdlib Require Import ZArith NArith Lia List Ascii String DecimalString.
From stdpp Require Import base tactics option list numbers strings gmap.

Set Default Proof Using "Type".

(** ** Errors and results *)

Inductive error : Type :=
  | ErrNoCookie          (* http.ErrNoCookie *)
  | ErrNoCodecs          (* securecookie: no codecs provided *)
  | ErrEncode            (* securecookie: the value could not be encoded *)
  | ErrDecode            (* securecookie: the value could not be decoded *)
  | ErrNotFound          (* bolthold.ErrNotFound *)
  | ErrKeyExists         (* bolthold.ErrKeyExists *)
  | ErrInvalidModified.  (* boltstore: invalid modified value *)

Global Instance error_eq_dec : EqDecision error.
Proof. solve_decision. Defined.

Inductive result (A : Type) : Type :=
  | Ok (a : A)
  | Err (e : error).
Arguments Ok {A} a.
Arguments Err {A} e.

(** ** package time *)

Module time.
Local Open Scope Z_scope.

(** A [time.Time] is its wall-clock reading in nanoseconds since the Unix
    epoch; a [time.Duration] is an [int64] count of nanoseconds. *)
Definition Time : Type := Z.
Definition Duration : Type := Z.

Definition wrap_int64 (z : Z) : Z := (z + 2 ^ 63) mod 2 ^ 64 - 2 ^ 63.

Definition Second : Duration := 1000000000.

(** [a * b] on [Duration]: int64 multiplication, which wraps. *)
Definition mul (a b : Duration) : Duration := wrap_int64 (a * b).

(** [time.Duration(n)] for an [int] n (64 bits wide). *)
Definition DurationOf (n : Z) : Duration := wrap_int64 n.

Definition Add (t : Time) (d : Duration) : Time := t + d.

Definition Unix (sec nsec : Z) : Time := sec * 1000000000 + nsec.

(** The largest number of seconds whose nanosecond count fits an int64. *)
Definition maxSeconds : Z := 9223372036.
End time.

(** ** package net/http: the cookies of a request and of a response *)

Module http.
Record Cookie : Type := mkCookie
  { Name : string;
    Value : string;
    Path : string;
    Domain : string;
    Expires : option time.Time;
    MaxAge : Z;
    Secure : bool;
    HttpOnly : bool;
    SameSite : Z }.

(** A request, as far as the store reads it: the name/value pairs of its
    Cookie header, in order. *)
Record Request : Type := mkRequest { Cookies : list (string * string) }.

(** A response writer, as far as the store writes it: the Set-Cookie
    headers added so far, in order. *)
Definition ResponseWriter : Type := list Cookie.

(** [r.Cookie(name)]: the first cookie of that name, or [ErrNoCookie]. *)
Definition Request_Cookie (r : Request) (name : string) : result string :=
  match List.find (fun c => String.eqb (fst c) name) (Cookies r) with
  | Some c => Ok (snd c)
  | None => Err ErrNoCookie
  end.

(** [http.SetCookie(w, cookie)] adds one Set-Cookie header. *)
Definition SetCookie (w : ResponseWriter) (c : Cookie) : ResponseWriter :=
  w ++ [c].
End http.

(** ** Session values *)

(** The values an application keeps in a session
    ([map[interface{}]interface{}] in Go): string keys, and values of the few
    dynamic types the stores distinguish. *)
Inductive GoValue : Type :=
  | GoString (s : string)
  | GoInt (z : Z)
  | GoTime (t : time.Time).

Global Instance GoValue_eq_dec : EqDecision GoValue.
Proof. solve_decision. Defined.

(** ** package gorilla/sessions *)

Module sessions.
Record Options : Type := mkOptions
  { Path : string;
    Domain : string;
    MaxAge : Z;
    Secure : bool;
    HttpOnly : bool;
    SameSite : Z }.

Definition Options_with_MaxAge (age : Z) (o : Options) : Options :=
  mkOptions (Path o) (Domain o) age (Secure o) (HttpOnly o) (SameSite o).

Record Session : Type := mkSession
  { ID : string;
    Values : gmap string GoValue;
    Opts : Options;        (* the field [Options] *)
    IsNew : bool;
    name : string }.

Definition Name (s : Session) : string := name s.

Definition zeroOptions : Options := mkOptions "" "" 0 false false 0.

(** [sessions.NewSession(store, name)] *)
Definition NewSession (name : string) : Session :=
  mkSession "" ∅ zeroOptions false name.

Definition with_ID (id : string) (s : Session) : Session :=
  mkSession id (Values s) (Opts s) (IsNew s) (name s).
Definition with_Values (v : gmap string GoValue) (s : Session) : Session :=
  mkSession (ID s) v (Opts s) (IsNew s) (name s).
Definition with_Options (o : Options) (s : Session) : Session :=
  mkSession (ID s) (Values s) o (IsNew s) (name s).
Definition with_IsNew (b : bool) (s : Session) : Session :=
  mkSession (ID s) (Values s) (Opts s) b (name s).

(** [sessions.NewCookie(name, value, options)]; [now] is the clock reading
    it takes when the max-age is positive. *)
Definition NewCookie (now : time.Time) (name value : string) (o : Options)
  : http.Cookie :=
  http.mkCookie name value (Path o) (Domain o)
    (if (0 <? MaxAge o)%Z
     then Some (time.Add now (time.mul (time.DurationOf (MaxAge o)) time.Second))
     else if (MaxAge o <? 0)%Z then Some (time.Unix 1 0) else None)
    (MaxAge o) (Secure o) (HttpOnly o) (SameSite o).
End sessions.

(** ** package gorilla/securecookie *)

Module securecookie.
(** What the stores encode: a session identifier (string), a storage key
    (uint64) or the values of a session. *)
Inductive Payload : Type :=
  | PString (s : string)
  | PUint64 (n : N)
  | PValues (v : gmap string GoValue).

(** The static type of the destination a token is decoded into. *)
Inductive Kind : Type := KString | KUint64 | KValues.

Global Instance Kind_eq_dec : EqDecision Kind.
Proof. solve_decision. Defined.

Definition kindOf (p : Payload) : Kind :=
  match p with
  | PString _ => KString
  | PUint64 _ => KUint64
  | PValues _ => KValues
  end.

Definition target (k : Kind) : Type :=
  match k with
  | KString => string
  | KUint64 => N
  | KValues => gmap string GoValue
  end.

Definition inject {k : Kind} : target k -> Payload :=
  match k with
  | KString => PString
  | KUint64 => PUint64
  | KValues => PValues
  end.

(** The interface [securecookie.Codec], a black box to the stores.  Encoding
    and decoding may depend on the codec's settings and on the clock (tokens
    are timestamped); [SetMaxAge] and [SetMaxLength] stand for the calls
    [sc.MaxAge(age)] and [sc.MaxLength(l)] the stores make on the codecs
    that are [*securecookie.SecureCookie]. *)
Class Codec (C : Type) : Type :=
  { Encode : C -> time.Time -> string -> Payload -> result string;
    Decode : C -> time.Time -> string -> string -> forall k : Kind, result (target k);
    SetMaxAge : Z -> C -> C;
    SetMaxLength : Z -> C -> C }.

Section multi.
Context {C : Type} `{Codec C}.

Fixpoint encodeLoop (now : time.Time) (name : string) (value : Payload)
    (codecs : list C) : result string :=
  match codecs with
  | [] => Err ErrEncode
  | c :: cs =>
      match Encode c now name value with
      | Ok encoded => Ok encoded
      | Err _ => encodeLoop now name value cs
      end
  end.

(** [securecookie.EncodeMulti(name, value, codecs...)]: the first codec
    that encodes the value wins. *)
Definition EncodeMulti (now : time.Time) (name : string) (value : Payload)
    (codecs : list C) : result string :=
  match codecs with
  | [] => Err ErrNoCodecs
  | _ => encodeLoop now name value codecs
  end.

Fixpoint decodeLoop (now : time.Time) (name value : string) (k : Kind)
    (codecs : list C) : result (target k) :=
  match codecs with
  | [] => Err ErrDecode
  | c :: cs =>
      match Decode c now name value k with
      | Ok dst => Ok dst
      | Err _ => decodeLoop now name value k cs
      end
  end.

(** [securecookie.DecodeMulti(name, value, dst, codecs...)], [k] being the
    type of [dst]: the first codec that decodes the token wins. *)
Definition DecodeMulti (now : time.Time) (name value : string) (k : Kind)
    (codecs : list C) : result (target k) :=
  match codecs with
  | [] => Err ErrNoCodecs
  | _ => decodeLoop now name value k codecs
  end.
End multi.

(** A token produced for a value of one type does not decode into a
    destination of another type: the serializers of securecookie (gob, JSON)
    reject a uint64 where a string is expected. *)
Class Typed (C : Type) `{Codec C} : Prop :=
  decode_kind :
    forall (c c' : C) (t t' : time.Time) (n : string) (p : Payload)
           (tok : string) (k : Kind) (v : target k),
      Encode c t n p = Ok tok -> Decode c' t' n tok k = Ok v -> kindOf p = k.
End securecookie.

(** ** package encoding/base32 and strings.TrimRight *)

Module base32.
Definition alphabet : list ascii :=
  list_ascii_of_string "ABCDEFGHIJKLMNOPQRSTUVWXYZ234567".

Definition bitsOfByte (b : Byte.byte) : list bool :=
  List.map (N.testbit (Byte.to_N b)) [7; 6; 5; 4; 3; 2; 1; 0]%N.

Definition quintetValue (q : list bool) : nat :=
  fold_left (fun acc (b : bool) => 2 * acc + (if b then 1 else 0))
    (q ++ replicate (5 - length q) false) 0.

Fixpoint quintets (fuel : nat) (bits : list bool) : list (list bool) :=
  match fuel with
  | O => []
  | S fuel' =>
      match bits with
      | [] => []
      | _ => take 5 bits :: quintets fuel' (drop 5 bits)
      end
  end.

(** [base32.StdEncoding.EncodeToString(src)]: five bits per character, the
    output padded with the character = to a multiple of eight characters. *)
Definition encodeChars (src : list Byte.byte) : list ascii :=
  let bits := List.concat (List.map bitsOfByte src) in
  List.map (fun q => nth (quintetValue q) alphabet "="%char)
    (quintets (length bits) bits).

Definition EncodeToString (src : list Byte.byte) : string :=
  let chars := encodeChars src in
  let pad := ((8 - length chars mod 8) mod 8)%nat in
  string_of_list_ascii (chars ++ replicate pad "="%char).

(** [base32.StdEncoding.WithPadding(base32.NoPadding).EncodeToString(src)] *)
Definition RawEncodeToString (src : list Byte.byte) : string :=
  string_of_list_ascii (encodeChars src).

Fixpoint dropLeading (c : ascii) (l : list ascii) : list ascii :=
  match l with
  | [] => []
  | x :: l' => if Ascii.eqb x c then dropLeading c l' else l
  end.

(** [strings.TrimRight(s, "=")] *)
Definition TrimRight (s : string) (c : ascii) : string :=
  string_of_list_ascii
    (rev (dropLeading c (rev (list_ascii_of_string s)))).
End base32.

(** ** package bolthold: one bucket of records *)

Module bolthold.
Section store.
Context {K : Type} `{Countable K} {A : Type}.

(** A bucket of records of type [A] under keys of type [K], with the
    bucket's sequence counter. *)
Record Store : Type := mkStore
  { bucket : gmap K A;
    sequence : N }.

(** The field tagged [boltholdKey] is filled with the record's key
    whenever a record is read. *)
Variable setKey : K -> A -> A.

(** [store.Get(key, &result)] *)
Definition Get (st : Store) (key : K) : result A :=
  match bucket st !! key with
  | Some a => Ok (setKey key a)
  | None => Err ErrNotFound
  end.

(** [store.Update(key, data)]: overwrites an existing record. *)
Definition Update (st : Store) (key : K) (data : A) : result Store :=
  match bucket st !! key with
  | Some _ => Ok (mkStore (<[key := data]> (bucket st)) (sequence st))
  | None => Err ErrNotFound
  end.

(** [store.Upsert(key, data)]: inserts or overwrites. *)
Definition Upsert (st : Store) (key : K) (data : A) : result Store :=
  Ok (mkStore (<[key := data]> (bucket st)) (sequence st)).

(** [store.Delete(key, dataType)]: removes an existing record. *)
Definition Delete (st : Store) (key : K) : result Store :=
  match bucket st !! key with
  | Some _ => Ok (mkStore (delete key (bucket st)) (sequence st))
  | None => Err ErrNotFound
  end.

(** [store.FindOne(&result, query)]: the first record, in the bucket's
    iteration order, that matches the query. *)
Definition FindOne (st : Store) (query : A -> bool) : result A :=
  match List.find (fun kv => query (snd kv)) (map_to_list (bucket st)) with
  | Some kv => Ok (setKey (fst kv) (snd kv))
  | None => Err ErrNotFound
  end.

(** [store.DeleteMatching(dataType, query)]: removes every record that
    matches the query. *)
Definition DeleteMatching (st : Store) (query : A -> bool) : Store :=
  mkStore (filter (fun kv => query (snd kv) = false) (bucket st))
    (sequence st).
End store.

Arguments Store K {_ _} A.

(** [store.Insert(bolthold.NextSequence(), data)] on a bucket with uint64
    keys: the key is the bucket's next sequence number; the record is stored
    as given and the key is then written into its key field when that field
    still holds the zero value.  Returns the store and the record as the
    caller sees it afterwards. *)
Definition InsertNextSequence {A : Type} (getKey : A -> N)
    (setKey : N -> A -> A) (st : Store N A) (data : A)
  : result (Store N A * A) :=
  let key := ((sequence st + 1) mod 2 ^ 64)%N in
  match bucket st !! key with
  | Some _ => Err ErrKeyExists
  | None =>
      Ok (mkStore (<[key := data]> (bucket st)) key,
          if decide (getKey data = 0%N) then setKey key data else data)
  end.
End bolthold.

(** ** src/boltstore.go: the sequence-keyed store *)

Module boltstore.
Local Open Scope Z_scope.

Definition sessionIDLen : nat := 32.
Definition defaultMaxAge : Z := 60 * 60 * 24 * 30.
Definition defaultPath : string := "/".

(** The persisted record.  [ID] is the bolthold key (the bucket's sequence
    number), [Session_] is the field [Session], the session identifier. *)
Record Session : Type := mkSession
  { ID : N;
    Session_ : string;
    Data : string;
    CreatedAt : time.Time;
    UpdatedAt : time.Time;
    ExpiresAt : time.Time }.

Definition setID (key : N) (s : Session) : Session :=
  mkSession key (Session_ s) (Data s) (CreatedAt s) (UpdatedAt s) (ExpiresAt s).

(** What the [select] of [PeriodicCleanup] receives: a tick of the timer,
    with the clock reading [Cleanup] takes at that tick, or the quit
    signal. *)
Inductive Event : Type :=
  | Tick (now : time.Time)
  | Quit.

Section methods.
Context {C : Type} `{securecookie.Codec C}.

Record BoltStore : Type := mkBoltStore
  { store : bolthold.Store N Session;
    Codecs : list C;
    Options : sessions.Options }.

Definition with_store (db : bolthold.Store N Session) (st : BoltStore)
  : BoltStore :=
  mkBoltStore db (Codecs st) (Options st).

(** The package-level [New(store, keyPairs...)]; [codecs] is
    [securecookie.CodecsFromPairs(keyPairs...)]. *)
Definition NewBoltStore (db : bolthold.Store N Session) (codecs : list C)
  : BoltStore :=
  mkBoltStore db codecs
    (sessions.mkOptions defaultPath "" defaultMaxAge false false 0).

Definition MaxAge (st : BoltStore) (age : Z) : BoltStore :=
  mkBoltStore (store st)
    (List.map (securecookie.SetMaxAge age) (Codecs st))
    (sessions.Options_with_MaxAge age (Options st)).

Definition MaxLength (st : BoltStore) (l : Z) : BoltStore :=
  mkBoltStore (store st)
    (List.map (securecookie.SetMaxLength l) (Codecs st))
    (Options st).

(** The query [Where("Session").Eq(sessionID).And("ExpiresAt").Gt(now)]. *)
Definition liveWithIdentifier (sessionID : string) (now : time.Time)
    (s : Session) : bool :=
  String.eqb (Session_ s) sessionID && (now <? ExpiresAt s).

(** [nil] is [None]. *)
Definition getSessionFromCookie (st : BoltStore) (r : http.Request)
    (name : string) (now : time.Time) : option Session :=
  match http.Request_Cookie r name with
  | Ok cookie =>
      match securecookie.DecodeMulti now name cookie securecookie.KString
              (Codecs st) with
      | Err _ => None
      | Ok sessionID =>
          match bolthold.FindOne setID (store st)
                  (liveWithIdentifier sessionID now) with
          | Err _ => None
          | Ok s => Some s
          end
      end
  | Err _ => None
  end.

(** What a call of [New] returns: the session and the error; and the
    store, whose codecs have been given the store's max-age. *)
Record Resolved : Type := mkResolved
  { resolved_store : BoltStore;
    resolved_session : sessions.Session;
    resolved_err : option error }.

Definition New (st : BoltStore) (r : http.Request) (name : string)
    (now : time.Time) : Resolved :=
  let session := sessions.NewSession name in
  let session := sessions.with_Options (Options st) session in
  let session := sessions.with_IsNew true session in
  let st := MaxAge st (sessions.MaxAge (Options st)) in
  match getSessionFromCookie st r (sessions.Name session) now with
  | Some s =>
      match securecookie.DecodeMulti now (sessions.Name session) (Data s)
              securecookie.KValues (Codecs st) with
      | Err _ => mkResolved st session None
      | Ok values =>
          let session := sessions.with_Values values session in
          let session := sessions.with_ID (Session_ s) session in
          let session := sessions.with_IsNew false session in
          mkResolved st session None
      end
  | None => mkResolved st session None
  end.

(** What a call of [Save] leaves behind: the store, the response, the
    working session (its [ID] may have been assigned) and the error. *)
Record Saved : Type := mkSaved
  { saved_store : BoltStore;
    saved_response : http.ResponseWriter;
    saved_session : sessions.Session;
    saved_err : option error }.

(** [Save].  [t0] is the clock reading of the lookup, [now] the one taken
    in [Save] itself (it also stands for the readings taken further down
    in the libraries); [rnd] is [securecookie.GenerateRandomKey(sessionIDLen)]. *)
Definition Save (st : BoltStore) (r : http.Request)
    (w : http.ResponseWriter) (session : sessions.Session)
    (t0 now : time.Time) (rnd : list Byte.byte) : Saved :=
  let name := sessions.Name session in
  let s := getSessionFromCookie st r name t0 in
  if sessions.MaxAge (sessions.Opts session) <? 0 then
    match s with
    | Some s =>
        match bolthold.Delete (store st) (ID s) with
        | Err e => mkSaved st w session (Some e)
        | Ok db =>
            mkSaved (with_store db st)
              (http.SetCookie w
                 (sessions.NewCookie now name "" (sessions.Opts session)))
              session None
        end
    | None =>
        mkSaved st
          (http.SetCookie w
             (sessions.NewCookie now name "" (sessions.Opts session)))
          session None
    end
  else
    match securecookie.EncodeMulti now name
            (securecookie.PValues (sessions.Values session)) (Codecs st) with
    | Err e => mkSaved st w session (Some e)
    | Ok data =>
        let expire :=
          time.Add now
            (time.mul time.Second
               (time.DurationOf (sessions.MaxAge (sessions.Opts session)))) in
        let finish (db : bolthold.Store N Session) (s : Session)
            (session : sessions.Session) : Saved :=
          match securecookie.EncodeMulti now name
                  (securecookie.PUint64 (ID s)) (Codecs st) with
          | Err e => mkSaved (with_store db st) w session (Some e)
          | Ok id =>
              mkSaved (with_store db st)
                (http.SetCookie w
                   (sessions.NewCookie now name id (sessions.Opts session)))
                session None
          end in
        match s with
        | None =>
            let session :=
              sessions.with_ID
                (base32.TrimRight (base32.EncodeToString rnd) "=") session in
            let s :=
              mkSession 0 (sessions.ID session) data now now expire in
            match bolthold.InsertNextSequence ID setID (store st) s with
            | Err e => mkSaved st w session (Some e)
            | Ok (db, s) => finish db s session
            end
        | Some s =>
            let s :=
              mkSession (ID s) (Session_ s) data (CreatedAt s) now expire in
            match bolthold.Update (store st) (ID s) s with
            | Err e => mkSaved st w session (Some e)
            | Ok db => finish db s session
            end
        end
    end.

(** [Cleanup]: [DeleteMatching(&Session{}, Where("ExpiresAt").Le(now))]. *)
Definition Cleanup (st : BoltStore) (now : time.Time) : BoltStore :=
  with_store
    (bolthold.DeleteMatching (store st) (fun s => ExpiresAt s <=? now)) st.
(** [PeriodicCleanup], along the events its loop receives in order: every
    tick runs [Cleanup], the quit signal returns.  When the events run out
    the loop is still waiting; the store is as the last tick left it. *)
Fixpoint PeriodicCleanup (st : BoltStore) (events : list Event) : BoltStore :=
  match events with
  | [] => st
  | Tick now :: events => PeriodicCleanup (Cleanup st now) events
  | Quit :: _ => st
  end.

(** [Get] hands [New] to the registry of gorilla/sessions, which caches the
    session per request; it has no counterpart here. *)
End methods.

Arguments BoltStore C : clear implicits.
Arguments Resolved C : clear implicits.
Arguments Saved C : clear implicits.
End boltstore.

(** ** src/unnamed/part_000: the string-keyed store

    The older design: the record is stored under the session identifier
    itself, there is no sequence key and no expiry. *)

Module part000.
Local Open Scope Z_scope.

Record Session : Type := mkSession
  { ID : string;
    Data : string;
    Modified : time.Time }.

Definition setID (key : string) (s : Session) : Session :=
  mkSession key (Data s) (Modified s).

Section methods.
Context {C : Type} `{securecookie.Codec C}.

Record Store : Type := mkStore
  { Codecs : list C;
    Options : sessions.Options;
    store : bolthold.Store string Session }.

Definition with_store (db : bolthold.Store string Session) (m : Store)
  : Store :=
  mkStore (Codecs m) (Options m) db.

Definition MaxAge (m : Store) (age : Z) : Store :=
  mkStore (List.map (securecookie.SetMaxAge age) (Codecs m))
    (sessions.Options_with_MaxAge age (Options m)) (store m).

(** The package-level [New(s, maxAge, keyPairs...)]. *)
Definition NewStore (s : bolthold.Store string Session) (maxAge : Z)
    (codecs : list C) : Store :=
  MaxAge (mkStore codecs (sessions.mkOptions "/" "" maxAge false false 0) s)
    maxAge.

(** [load]: the session with its values filled in, and the error. *)
Definition load (m : Store) (session : sessions.Session) (now : time.Time)
  : sessions.Session * option error :=
  match bolthold.Get setID (store m) (sessions.ID session) with
  | Err e => (session, Some e)
  | Ok s =>
      match securecookie.DecodeMulti now (sessions.Name session) (Data s)
              securecookie.KValues (Codecs m) with
      | Err e => (session, Some e)
      | Ok values => (sessions.with_Values values session, None)
      end
  end.

Definition New (m : Store) (r : http.Request) (name : string)
    (now : time.Time) : sessions.Session * option error :=
  let session := sessions.NewSession name in
  let session :=
    sessions.with_Options
      (sessions.mkOptions (sessions.Path (Options m))
         (sessions.Domain (Options m)) (sessions.MaxAge (Options m))
         (sessions.Secure (Options m)) (sessions.HttpOnly (Options m))
         (sessions.SameSite (Options m))) session in
  let session := sessions.with_IsNew true session in
  match http.Request_Cookie r name with
  | Err e => (session, Some e)
  | Ok cookie =>
      match securecookie.DecodeMulti now name cookie securecookie.KString
              (Codecs m) with
      | Err e => (session, Some e)
      | Ok id =>
          let session := sessions.with_ID id session in
          match load m session now with
          | (session, Some e) =>
              if decide (e = ErrNotFound) then (session, None)
              else (session, Some e)
          | (session, None) => (sessions.with_IsNew false session, None)
          end
      end
  end.

Definition upsert (m : Store) (session : sessions.Session)
    (now : time.Time) : result (bolthold.Store string Session) :=
  let modified : result time.Time :=
    match sessions.Values session !! "modified"%string with
    | Some (GoTime t) => Ok t
    | Some _ => Err ErrInvalidModified
    | None => Ok now
    end in
  match modified with
  | Err e => Err e
  | Ok modified =>
      match securecookie.EncodeMulti now (sessions.Name session)
              (securecookie.PValues (sessions.Values session)) (Codecs m) with
      | Err e => Err e
      | Ok encoded =>
          bolthold.Upsert (store m) (sessions.ID session)
            (mkSession (sessions.ID session) encoded modified)
      end
  end.

Definition delete (m : Store) (session : sessions.Session)
  : result (bolthold.Store string Session) :=
  bolthold.Delete (store m) (sessions.ID session).

Record Saved : Type := mkSaved
  { saved_store : Store;
    saved_response : http.ResponseWriter;
    saved_session : sessions.Session;
    saved_err : option error }.

(** [Save]; the request is not used.  [rnd] is
    [securecookie.GenerateRandomKey(32)]. *)
Definition Save (m : Store) (w : http.ResponseWriter)
    (session : sessions.Session) (now : time.Time) (rnd : list Byte.byte)
  : Saved :=
  if sessions.MaxAge (sessions.Opts session) <? 0 then
    match delete m session with
    | Err e => mkSaved m w session (Some e)
    | Ok db =>
        mkSaved (with_store db m)
          (http.SetCookie w
             (sessions.NewCookie now (sessions.Name session) ""
                (sessions.Opts session)))
          session None
    end
  else
    let session :=
      if decide (sessions.ID session = ""%string)
      then sessions.with_ID (base32.RawEncodeToString rnd) session
      else session in
    match upsert m session now with
    | Err e => mkSaved m w session (Some e)
    | Ok db =>
        match securecookie.EncodeMulti now (sessions.Name session)
                (securecookie.PString (sessions.ID session)) (Codecs m) with
        | Err e => mkSaved (with_store db m) w session (Some e)
        | Ok encoded =>
            mkSaved (with_store db m)
              (http.SetCookie w
                 (sessions.NewCookie now (sessions.Name session) encoded
                    (sessions.Opts session)))
              session None
        end
    end.
End methods.

Arguments Store C : clear implicits.
Arguments Saved C : clear implicits.
End part000.

(** ** A transparent codec

    An implementation of the [Codec] interface whose tokens are readable: a
    tag for the type of the value, the cookie name, and the value written out
    with length-prefixed fields.  It is not a [*securecookie.SecureCookie], so
    the stores' [MaxAge] and [MaxLength] leave it untouched.  It is the codec
    of the concrete scenarios below. *)

Module plain.
Import securecookie.

(** [serializes] tells which types of value the codec's serializer accepts. *)
Record PlainCodec : Type := mkPlain { serializes : Kind -> bool }.

Definition tagOf (k : Kind) : ascii :=
  match k with
  | KString => "s"
  | KUint64 => "u"
  | KValues => "v"
  end%char.

Definition writeN (n : N) : string := NilZero.string_of_uint (N.to_uint n).
Definition readN (s : string) : option N :=
  N.of_uint <$> NilZero.uint_of_string s.

Definition writeZ (z : Z) : string := NilZero.string_of_int (Z.to_int z).
Definition readZ (s : string) : option Z :=
  Z.of_int <$> NilZero.int_of_string s.

(** A field is written as its length, a colon, and its characters. *)
Definition writeField (s : string) : string :=
  writeN (N.of_nat (String.length s)) +:+ ":" +:+ s.

Fixpoint splitAt (c : ascii) (s : string) : option (string * string) :=
  match s with
  | EmptyString => None
  | String x s' =>
      if Ascii.eqb x c then Some (EmptyString, s')
      else match splitAt c s' with
           | Some (a, b) => Some (String x a, b)
           | None => None
           end
  end.

Definition readField (s : string) : option (string * string) :=
  match splitAt ":" s with
  | Some (digits, rest) =>
      match readN digits with
      | Some n =>
          let n := N.to_nat n in
          if decide (n ≤ String.length rest)%nat
          then Some (substring 0 n rest,
                     substring n (String.length rest - n) rest)
          else None
      | None => None
      end
  | None => None
  end.

Definition writeValue (v : GoValue) : string :=
  match v with
  | GoString s => String "s" (writeField s)
  | GoInt z => String "i" (writeField (writeZ z))
  | GoTime t => String "t" (writeField (writeZ t))
  end.

Definition readValue (tag : ascii) (body : string) : option GoValue :=
  if Ascii.eqb tag "s" then Some (GoString body)
  else if Ascii.eqb tag "i" then GoInt <$> readZ body
  else if Ascii.eqb tag "t" then GoTime <$> readZ body
  else None.

Definition writeEntries (l : list (string * GoValue)) : string :=
  fold_right (fun kv acc => writeField (fst kv) +:+ writeValue (snd kv) +:+ acc)
    EmptyString l.

Fixpoint readEntries (fuel : nat) (s : string)
  : option (list (string * GoValue)) :=
  match fuel with
  | O => None
  | S fuel' =>
      match s with
      | EmptyString => Some []
      | _ =>
          match readField s with
          | Some (k, String tag rest) =>
              match readField rest with
              | Some (body, rest') =>
                  match readValue tag body, readEntries fuel' rest' with
                  | Some v, Some l => Some ((k, v) :: l)
                  | _, _ => None
                  end
              | None => None
              end
          | _ => None
          end
      end
  end.

Definition writePayload (p : Payload) : string :=
  match p with
  | PString s => s
  | PUint64 n => writeN n
  | PValues v => writeEntries (map_to_list v)
  end.

Definition encode (c : PlainCodec) (name : string) (p : Payload)
  : result string :=
  if serializes c (kindOf p)
  then Ok (String (tagOf (kindOf p)) (writeField name +:+ writePayload p))
  else Err ErrEncode.

Definition readPayload (body : string) (k : Kind) : result (target k) :=
  match k return result (target k) with
  | KString => Ok body
  | KUint64 =>
      match readN body with
      | Some n => Ok n
      | None => Err ErrDecode
      end
  | KValues =>
      match readEntries (S (String.length body)) body with
      | Some l => Ok (list_to_map l)
      | None => Err ErrDecode
      end
  end.

Definition decode (c : PlainCodec) (name value : string) (k : Kind)
  : result (target k) :=
  match value with
  | String tag rest =>
      if Ascii.eqb tag (tagOf k) then
        match readField rest with
        | Some (n, body) =>
            if String.eqb n name then readPayload body k else Err ErrDecode
        | None => Err ErrDecode
        end
      else Err ErrDecode
  | EmptyString => Err ErrDecode
  end.

Global Instance plain_codec : Codec PlainCodec :=
  { Encode c _ name p := encode c name p;
    Decode c _ name value k := decode c name value k;
    SetMaxAge _ c := c;
    SetMaxLength _ c := c }.

(** The codec that serializes every type of value. *)
Definition std : PlainCodec := mkPlain (fun _ => true).

(** A codec whose serializer has no encoding for integers. *)
Definition noUint : PlainCodec :=
  mkPlain (fun k => if decide (k = KUint64) then false else true).
End plain.

(** ** Vocabulary of the specification *)

Module spec.
Import boltstore.
Local Open Scope Z_scope.

(** The session the constructors of both stores start from: no identifier,
    no values, the store's options, marked new. *)
Definition blank (o : sessions.Options) (name : string) : sessions.Session :=
  sessions.mkSession "" ∅ o true name.

Section vocabulary.
Context {C : Type} `{securecookie.Codec C}.

(** The persisted records of a store, by storage key. *)
Definition records (st : BoltStore C) : gmap N Session :=
  bolthold.bucket (store st).

(** No two records carry the same session identifier. *)
Definition uniqueIdentifiers (st : BoltStore C) : Prop :=
  forall k1 k2 r1 r2,
    records st !! k1 = Some r1 -> records st !! k2 = Some r2 ->
    Session_ r1 = Session_ r2 -> k1 = k2.

(** The request has a cookie of that name whose token decodes, with these
    codecs at this time, to the session identifier [sid]. *)
Definition carries (codecs : list C) (r : http.Request) (name : string)
    (now : time.Time) (sid : string) : Prop :=
  exists cookie,
    http.Request_Cookie r name = Ok cookie /\
    securecookie.DecodeMulti now name cookie securecookie.KString codecs
    = Ok sid.

(** The cookie of the request is absent, or fails to decode, or decodes
    to an identifier that no live record carries. *)
Definition unresolvable (st : BoltStore C) (r : http.Request)
    (name : string) (now : time.Time) : Prop :=
  http.Request_Cookie r name = Err ErrNoCookie \/
  (exists cookie e,
      http.Request_Cookie r name = Ok cookie /\
      securecookie.DecodeMulti now name cookie securecookie.KString
        (Codecs st) = Err e) \/
  (exists sid,
      carries (Codecs st) r name now sid /\
      forall k rec,
        records st !! k = Some rec -> Session_ rec = sid ->
        ExpiresAt rec <= now).

(** Every record expires a whole, representable number of seconds after
    its last update. *)
Definition expiryInvariant (st : BoltStore C) : Prop :=
  forall k rec,
    records st !! k = Some rec ->
    exists m,
      0 <= m <= time.maxSeconds /\
      ExpiresAt rec = UpdatedAt rec + m * 1000000000.

(** The deadline [Save] computes at [now] for a max-age of [age]
    seconds. *)
Definition expireAfter (now : time.Time) (age : Z) : time.Time :=
  time.Add now (time.mul time.Second (time.DurationOf age)).

(** The record [Save] writes over the resolved record [s]. *)
Definition refreshed (s : Session) (data : string) (now : time.Time)
    (age : Z) : Session :=
  mkSession (ID s) (Session_ s) data (CreatedAt s) now (expireAfter now age).

(** The record [Save] inserts for a session without a resolved record. *)
Definition fresh (rnd : list Byte.byte) (data : string) (now : time.Time)
    (age : Z) : Session :=
  mkSession 0 (base32.TrimRight (base32.EncodeToString rnd) "=") data
    now now (expireAfter now age).

(** The storage key of the record a save on this request writes: the key
    of the record the cookie resolves to, or else the bucket's next
    sequence number. *)
Definition sequence_key_of (st : BoltStore C) (r : http.Request)
    (session : sessions.Session) (t0 : time.Time) : N :=
  match getSessionFromCookie st r (sessions.Name session) t0 with
  | Some s => ID s
  | None => ((bolthold.sequence (store st) + 1) mod 2 ^ 64)%N
  end.

(** The records a sweep at [now] is due to remove. *)
Definition expired (st : BoltStore C) (now : time.Time) : gmap N Session :=
  filter (fun kv => ExpiresAt (snd kv) <= now) (records st).

(** The record a save with non-negative max-age writes, [data] being the
    encoded values: the resolved record refreshed, or a fresh one. *)
Definition written (st : BoltStore C) (r : http.Request)
    (session : sessions.Session) (t0 now : time.Time) (rnd : list Byte.byte)
    (data : string) : Session :=
  match getSessionFromCookie st r (sessions.Name session) t0 with
  | Some s => refreshed s data now (sessions.MaxAge (sessions.Opts session))
  | None => fresh rnd data now (sessions.MaxAge (sessions.Opts session))
  end.

(** Every storage key in use is at most the bucket's sequence counter. *)
Definition keysBelowSequence (st : BoltStore C) : Prop :=
  forall k, is_Some (records st !! k) ->
            (k <= bolthold.sequence (store st))%N.
End vocabulary.

(** The clock readings of the ticks a loop of [PeriodicCleanup] serves: those
    before the first quit signal. *)
Fixpoint ticksServed (events : list Event) : list time.Time :=
  match events with
  | [] => []
  | Tick now :: events => now :: ticksServed events
  | Quit :: _ => []
  end.

(** The characters of the base32 alphabet. *)
Definition inAlphabet (c : ascii) : Prop := In c base32.alphabet.
End spec.

(** ** Concrete scenarios *)

Module scenario.
Import boltstore.
Local Open Scope Z_scope.

Definition hour : time.Duration := 3600 * 1000000000.

Definition codecs : list plain.PlainCodec := [plain.std].

Definition options : sessions.Options :=
  sessions.mkOptions "/" "" 3600 false false 0.

Definition alice : gmap string GoValue := {[ "user"%string := GoString "alice" ]}.

(** The token of the values [alice] for the cookie name "sid". *)
Definition aliceData : string := "v3:sid4:users5:alice".

(** A record saved at time 0 with a max-age of one hour. *)
Definition rec1 : Session := mkSession 0 "ABC" aliceData 0 0 hour.

Definition st1 : BoltStore plain.PlainCodec :=
  mkBoltStore (bolthold.mkStore {[ 1%N := rec1 ]} 1) codecs options.

Definition st0 : BoltStore plain.PlainCodec :=
  mkBoltStore (bolthold.mkStore ∅ 0) codecs options.

(** A request whose cookie "sid" carries the identifier "ABC". *)
Definition req1 : http.Request := http.mkRequest [("sid", "s3:sidABC")]%string.

Definition reqNone : http.Request := http.mkRequest [].

(** A working session with the values [alice], as [New] returns it for a
    request without cookie and the application then fills it. *)
Definition session1 : sessions.Session :=
  sessions.mkSession "" alice options true "sid".

Definition rnd : list Byte.byte := replicate 32 Byte.x00.

(** The same session with a max-age of 9223372037 seconds. *)
Definition sessionHuge : sessions.Session :=
  sessions.mkSession "" alice
    (sessions.mkOptions "/" "" 9223372037 false false 0) true "sid".

(** The same session marked for deletion. *)
Definition sessionGone : sessions.Session :=
  sessions.mkSession "" alice
    (sessions.mkOptions "/" "" (-1) false false 0) true "sid".

(** An empty store whose only codec cannot encode integers. *)
Definition stNoUint : BoltStore plain.PlainCodec :=
  mkBoltStore (bolthold.mkStore ∅ 0) [plain.noUint] options.

(** An empty store without codecs, as [New(store)] without key pairs
    builds it. *)
Definition stNoCodecs : BoltStore plain.PlainCodec :=
  mkBoltStore (bolthold.mkStore ∅ 0) [] options.

(** An empty string-keyed store. *)
Definition m0 : part000.Store plain.PlainCodec :=
  part000.mkStore codecs options (bolthold.mkStore ∅ 0).

(** A string-keyed store holding the values [alice] under "ABC". *)
Definition m1 : part000.Store plain.PlainCodec :=
  part000.mkStore codecs options
    (bolthold.mkStore {[ "ABC"%string := part000.mkSession "ABC" aliceData 0 ]} 0).

(** The cookie value [Save] issues on a first save into an empty store:
    the token of the uint64 key 1. *)
Definition issued : string := "u3:sid1".

Definition cookieIssued : http.Cookie :=
  sessions.NewCookie 0 "sid" issued options.

(** The next request of the client: it carries the issued cookie. *)
Definition reqIssued : http.Request := http.mkRequest [("sid", issued)]%string.

(** The store after the first save of [session1] at time 0. *)
Definition stSaved : BoltStore plain.PlainCodec :=
  saved_store (Save st0 reqNone [] session1 0 0 rnd).


(** The identifier made from [rnd]. *)
Definition idA : string := "AAAAAAAAAAAAAAAAAAAAAAAAAAAAAAAAAAAAAAAAAAAAAAAAAAAA".

(** A request whose cookie "sid" carries the identifier [idA]. *)
Definition reqA : http.Request :=
  http.mkRequest [("sid", "s3:sid" +:+ idA)]%string.

(** A store whose only record holds a payload that does not decode. *)
Definition stGarbled : BoltStore plain.PlainCodec :=
  mkBoltStore
    (bolthold.mkStore {[ 1%N := mkSession 0 "ABC" "garbled" 0 0 hour ]} 1)
    codecs options.

(** A working session whose reserved value "modified" is not a time. *)
Definition sessionBadModified : sessions.Session :=
  sessions.mkSession "" {[ "modified"%string := GoString "yesterday" ]}
    options true "sid".

(** A working session that brings its own modification time. *)
Definition sessionModified : sessions.Session :=
  sessions.mkSession "ABC" {[ "modified"%string := GoTime 42 ]}
    options false "sid".

(** The resumed session of [req1] marked for deletion. *)
Definition sessionLogout : sessions.Session :=
  sessions.mkSession "ABC" alice
    (sessions.mkOptions "/" "" (-1) false false 0) false "sid".

(** A request whose cookie "sid" has been tampered with. *)
Definition reqBad : http.Request := http.mkRequest [("sid", "x3:sidABC")]%string.
End scenario.

(** * Properties *)

(** ** The library models on concrete inputs *)

Example base32_foobar :
  base32.EncodeToString
    [Byte.x66; Byte.x6f; Byte.x6f; Byte.x62; Byte.x61; Byte.x72]
  = "MZXW6YTBOI======"%string.
Proof. reflexivity. Qed.

Example base32_trim :
  base32.TrimRight "MZXW6YTBOI======" "=" = "MZXW6YTBOI"%string.
Proof. reflexivity. Qed.

Example base32_raw :
  base32.RawEncodeToString [Byte.x66; Byte.x6f] = "MZXQ"%string.
Proof. reflexivity. Qed.

Example plain_roundtrip_values :
  let v : gmap string GoValue :=
    <["user"%string := GoString "alice"]> (<["n"%string := GoInt (-3)]> ∅) in
  match securecookie.Encode plain.std 0%Z "sid" (securecookie.PValues v) with
  | Ok tok =>
      securecookie.Decode plain.std 5%Z "sid" tok securecookie.KValues = Ok v
  | Err _ => False
  end.
Proof. vm_compute. reflexivity. Qed.

Example wrap_int64_small : time.wrap_int64 3600000000000 = 3600000000000%Z.
Proof. reflexivity. Qed.

Example wrap_int64_overflow :
  time.mul time.Second (time.DurationOf 9223372037) = (-9223372036709551616)%Z.
Proof. reflexivity. Qed.

(** ** bolthold *)

Section bolthold_facts.
Context {K : Type} `{Countable K} {A : Type} (setKey : K -> A -> A).
Implicit Types (st : bolthold.Store K A) (q : A -> bool).

Lemma FindOne_Ok st q a :
  bolthold.FindOne setKey st q = Ok a ->
  exists k a0,
    bolthold.bucket st !! k = Some a0 /\ q a0 = true /\ a = setKey k a0.
Proof.
  unfold bolthold.FindOne.
  destruct (List.find _ _) as [[k a0]|] eqn:Hfind; [|discriminate].
  intros [= <-]. apply find_some in Hfind as [Hin Hq].
  exists k, a0. split; [|done].
  apply elem_of_map_to_list, list_elem_of_In, Hin.
Qed.

Lemma FindOne_Err st q e :
  bolthold.FindOne setKey st q = Err e ->
  forall k a0, bolthold.bucket st !! k = Some a0 -> q a0 = false.
Proof.
  unfold bolthold.FindOne.
  destruct (List.find _ _) as [kv|] eqn:Hfind; [discriminate|].
  intros _ k a0 Hk.
  apply (find_none _ _ Hfind (k, a0)).
  apply list_elem_of_In, elem_of_map_to_list, Hk.
Qed.

Lemma DeleteMatching_lookup st q k a :
  bolthold.bucket (bolthold.DeleteMatching st q) !! k = Some a <->
  bolthold.bucket st !! k = Some a /\ q a = false.
Proof. unfold bolthold.DeleteMatching; simpl. apply map_lookup_filter_Some. Qed.

Lemma DeleteMatching_nothing st q :
  (forall k a, bolthold.bucket st !! k = Some a -> q a = false) ->
  bolthold.DeleteMatching st q = st.
Proof.
  intros Hq. destruct st as [b n]. unfold bolthold.DeleteMatching; simpl in *.
  f_equal. apply map_filter_id. intros k a Hk. simpl. eauto.
Qed.
End bolthold_facts.

(** ** The sequence-keyed store: lookup *)

Section lookup_facts.
Context {C : Type} `{securecookie.Codec C}.
Import boltstore spec.
Local Open Scope Z_scope.
Implicit Types (st : BoltStore C) (r : http.Request) (s rec : Session).

Lemma Request_Cookie_Err r name e :
  http.Request_Cookie r name = Err e -> e = ErrNoCookie.
Proof.
  unfold http.Request_Cookie. destruct (List.find _ _); congruence.
Qed.


(** The lookup returns a stored, live record, read back under its key, whose
    identifier is the one the cookie decodes to. *)
Lemma getSessionFromCookie_Some st r name now s :
  getSessionFromCookie st r name now = Some s ->
  exists rec,
    records st !! ID s = Some rec /\ s = setID (ID s) rec /\
    carries (Codecs st) r name now (Session_ rec) /\ now < ExpiresAt rec.
Proof.
  unfold getSessionFromCookie, carries.
  destruct (http.Request_Cookie r name) as [cookie|] eqn:Hc; [|discriminate].
  destruct (securecookie.DecodeMulti _ _ _ _ _) as [sid|] eqn:Hd;
    [|discriminate].
  destruct (bolthold.FindOne _ _ _) as [s'|] eqn:Hf; [|discriminate].
  intros [= ->]. apply FindOne_Ok in Hf as (k & rec & Hk & Hq & ->).
  unfold liveWithIdentifier in Hq. apply andb_true_iff in Hq as [Hs Hl].
  apply String.eqb_eq in Hs. apply Z.ltb_lt in Hl.
  exists rec. simpl. repeat split; [done| |done].
  exists cookie. by rewrite Hs.
Qed.

(** The lookup fails exactly on the requests the specification calls
    unresolvable. *)
Lemma getSessionFromCookie_None st r name now :
  getSessionFromCookie st r name now = None <-> unresolvable st r name now.
Proof.
  unfold getSessionFromCookie, unresolvable, carries. split.
  - destruct (http.Request_Cookie r name) as [cookie|e] eqn:Hc.
    + destruct (securecookie.DecodeMulti _ _ _ _ _) as [sid|e] eqn:Hd.
      * destruct (bolthold.FindOne _ _ _) as [s'|e] eqn:Hf; [discriminate|].
        intros _. right; right. exists sid. split; [by exists cookie|].
        intros k rec Hk Hsid.
        pose proof (FindOne_Err _ _ _ _ Hf k rec Hk) as Hq.
        unfold liveWithIdentifier in Hq.
        apply andb_false_iff in Hq as [Hq|Hq].
        -- apply String.eqb_neq in Hq. congruence.
        -- apply Z.ltb_ge in Hq. done.
      * intros _. right; left. by exists cookie, e.
    + intros _. left. by rewrite (Request_Cookie_Err _ _ _ Hc).
  - intros [Hc|[(cookie & e & Hc & Hd)|(sid & (cookie & Hc & Hd) & Hdead)]].
    + by rewrite Hc.
    + by rewrite Hc, Hd.
    + rewrite Hc, Hd.
      destruct (bolthold.FindOne _ _ _) as [s'|e] eqn:Hf; [|done].
      apply FindOne_Ok in Hf as (k & rec & Hk & Hq & ->).
      unfold liveWithIdentifier in Hq. apply andb_true_iff in Hq as [Hs Hl].
      apply String.eqb_eq in Hs. apply Z.ltb_lt in Hl.
      specialize (Hdead k rec Hk Hs). lia.
Qed.

(** When the lookup fails, [New] returns a session as [NewSession] made it,
    marked new, and no error. *)
Lemma New_unresolved st r name now :
  getSessionFromCookie (MaxAge st (sessions.MaxAge (Options st))) r name now
  = None ->
  resolved_session (New st r name now)
  = sessions.mkSession "" ∅ (Options st) true name /\
  resolved_err (New st r name now) = None.
Proof. unfold New. simpl. intros ->. done. Qed.

Lemma New_err st r name now : resolved_err (New st r name now) = None.
Proof.
  unfold New. destruct (getSessionFromCookie _ _ _ _); [|done].
  destruct (securecookie.DecodeMulti _ _ _ _ _); done.
Qed.
End lookup_facts.

Example scenario_aliceData :
  securecookie.EncodeMulti 0%Z "sid" (securecookie.PValues scenario.alice)
    scenario.codecs = Ok scenario.aliceData.
Proof. vm_compute. reflexivity. Qed.

Example scenario_resume :
  boltstore.resolved_session
    (boltstore.New scenario.st1 scenario.req1 "sid" 5%Z)
  = sessions.mkSession "ABC" scenario.alice scenario.options false "sid".
Proof. vm_compute. reflexivity. Qed.

(** ** The sequence-keyed store: expiry and sweeping *)

Section expiry.
Context {C : Type} `{securecookie.Codec C}.
Import boltstore spec.
Local Open Scope Z_scope.
Implicit Types (st : BoltStore C) (r : http.Request) (s rec : Session).


(** Claim C7.  A sweep keeps exactly the records that expire after the
    current time, so none whose expires-at is at or before it remains; a
    second sweep at the same time, or at any time at which no kept record
    has expired, changes nothing. *)
Theorem sweep_removes_expired_and_is_idempotent st now :
  (forall k rec,
      records (Cleanup st now) !! k = Some rec <->
      records st !! k = Some rec /\ now < ExpiresAt rec) /\
  expired (Cleanup st now) now = ∅ /\
  Cleanup (Cleanup st now) now = Cleanup st now /\
  (forall now',
      expired (Cleanup st now) now' = ∅ ->
      Cleanup (Cleanup st now) now' = Cleanup st now).
Proof.
  assert (Hkeep : forall k rec,
             records (Cleanup st now) !! k = Some rec <->
             records st !! k = Some rec /\ now < ExpiresAt rec).
  { intros k rec. unfold records, Cleanup, with_store. cbn [store].
    rewrite DeleteMatching_lookup, Z.leb_gt. done. }
  assert (Hidem : forall now',
             expired (Cleanup st now) now' = ∅ ->
             Cleanup (Cleanup st now) now' = Cleanup st now).
  { intros now' Hnone. unfold Cleanup at 1. unfold with_store. simpl.
    rewrite DeleteMatching_nothing; [by destruct st|].
    intros k rec Hk. apply Z.leb_gt.
    destruct (decide (ExpiresAt rec <= now')) as [Hle|]; [|lia].
    assert (expired (Cleanup st now) now' !! k = Some rec) as Hin.
    { unfold expired. apply map_lookup_filter_Some. done. }
    rewrite Hnone in Hin. done. }
  assert (Hnone : expired (Cleanup st now) now = ∅).
  { apply map_eq. intros k. rewrite lookup_empty.
    apply eq_None_not_Some. intros [rec Hin].
    unfold expired in Hin. apply map_lookup_filter_Some in Hin as [Hk Hle].
    apply Hkeep in Hk. simpl in Hle. lia. }
  auto.
Qed.
End expiry.

(** ** The sequence-keyed store: the paths of [Save] *)

Section save_paths.
Context {C : Type} `{securecookie.Codec C}.
Import boltstore spec.
Local Open Scope Z_scope.
Implicit Types (st : BoltStore C) (r : http.Request) (s rec : Session)
  (w : http.ResponseWriter) (session : sessions.Session).

Lemma expire_in_range age :
  0 <= age <= time.maxSeconds ->
  time.mul time.Second (time.DurationOf age) = age * 1000000000.
Proof.
  unfold time.maxSeconds, time.mul, time.DurationOf, time.wrap_int64,
    time.Second.
  intros Hage. rewrite (Z.mod_small (age + _)) by lia.
  rewrite Z.mod_small by lia. lia.
Qed.

Lemma expireAfter_in_range now age :
  0 <= age <= time.maxSeconds ->
  expireAfter now age = now + age * 1000000000.
Proof. intros Hage. unfold expireAfter, time.Add. by rewrite expire_in_range. Qed.

(** Negative max-age: the resolved record, if any, is deleted and the
    deletion cookie is written. *)
Lemma Save_delete_path st r w session t0 now rnd :
  sessions.MaxAge (sessions.Opts session) < 0 ->
  let out := Save st r w session t0 now rnd in
  let cookie :=
    sessions.NewCookie now (sessions.Name session) "" (sessions.Opts session) in
  match getSessionFromCookie st r (sessions.Name session) t0 with
  | Some s =>
      out = mkSaved
              (with_store
                 (bolthold.mkStore (delete (ID s) (records st))
                    (bolthold.sequence (store st))) st)
              (http.SetCookie w cookie) session None
  | None => out = mkSaved st (http.SetCookie w cookie) session None
  end.
Proof.
  intros Hneg. cbv zeta. unfold Save.
  apply Z.ltb_lt in Hneg. rewrite Hneg.
  destruct (getSessionFromCookie _ _ _ _) as [s|] eqn:Hs; [|done].
  apply getSessionFromCookie_Some in Hs as (rec & Hk & _).
  unfold bolthold.Delete. unfold records in Hk. rewrite Hk. done.
Qed.

(** Non-negative max-age, the payload cannot be encoded: nothing happens. *)
Lemma Save_payload_failure st r w session t0 now rnd e :
  0 <= sessions.MaxAge (sessions.Opts session) ->
  securecookie.EncodeMulti now (sessions.Name session)
    (securecookie.PValues (sessions.Values session)) (Codecs st) = Err e ->
  Save st r w session t0 now rnd = mkSaved st w session (Some e).
Proof.
  intros Hage Henc. unfold Save.
  apply Z.ltb_ge in Hage. rewrite Hage, Henc. done.
Qed.

(** Non-negative max-age, a record resolved: it is overwritten under its
    key, and the cookie is written if the key can be encoded. *)
Lemma Save_update_path st r w session t0 now rnd s data :
  0 <= sessions.MaxAge (sessions.Opts session) ->
  getSessionFromCookie st r (sessions.Name session) t0 = Some s ->
  securecookie.EncodeMulti now (sessions.Name session)
    (securecookie.PValues (sessions.Values session)) (Codecs st) = Ok data ->
  let st' :=
    with_store
      (bolthold.mkStore
         (<[ID s := refreshed s data now
                      (sessions.MaxAge (sessions.Opts session))]> (records st))
         (bolthold.sequence (store st))) st in
  Save st r w session t0 now rnd =
  match securecookie.EncodeMulti now (sessions.Name session)
          (securecookie.PUint64 (ID s)) (Codecs st) with
  | Err e => mkSaved st' w session (Some e)
  | Ok id =>
      mkSaved st'
        (http.SetCookie w
           (sessions.NewCookie now (sessions.Name session) id
              (sessions.Opts session)))
        session None
  end.
Proof.
  intros Hage Hs Henc. cbv zeta. unfold Save.
  apply Z.ltb_ge in Hage. rewrite Hage, Henc, Hs.
  apply getSessionFromCookie_Some in Hs as (rec & Hk & _).
  unfold bolthold.Update. cbn [ID]. unfold records in Hk. rewrite Hk. done.
Qed.

(** Non-negative max-age, no record resolved: a record with a fresh
    identifier is inserted under the next sequence number, and the cookie is
    written if the key can be encoded. *)
Lemma Save_insert_path st r w session t0 now rnd data :
  0 <= sessions.MaxAge (sessions.Opts session) ->
  getSessionFromCookie st r (sessions.Name session) t0 = None ->
  securecookie.EncodeMulti now (sessions.Name session)
    (securecookie.PValues (sessions.Values session)) (Codecs st) = Ok data ->
  let key := ((bolthold.sequence (store st) + 1) mod 2 ^ 64)%N in
  let s := fresh rnd data now (sessions.MaxAge (sessions.Opts session)) in
  let session' := sessions.with_ID (Session_ s) session in
  let st' :=
    with_store (bolthold.mkStore (<[key := s]> (records st)) key) st in
  Save st r w session t0 now rnd =
  match records st !! key with
  | Some _ => mkSaved st w session' (Some ErrKeyExists)
  | None =>
      match securecookie.EncodeMulti now (sessions.Name session)
              (securecookie.PUint64 key) (Codecs st) with
      | Err e => mkSaved st' w session' (Some e)
      | Ok id =>
          mkSaved st'
            (http.SetCookie w
               (sessions.NewCookie now (sessions.Name session) id
                  (sessions.Opts session)))
            session' None
      end
  end.
Proof.
  intros Hage Hs Henc. cbv zeta. unfold Save.
  apply Z.ltb_ge in Hage. rewrite Hage, Henc, Hs.
  unfold bolthold.InsertNextSequence, records.
  destruct (bolthold.bucket (store st) !! _); done.
Qed.
End save_paths.

(** ** The sequence-keyed store: saving a resumed session *)

Section resumed.
Context {C : Type} `{securecookie.Codec C}.
Import boltstore spec.
Local Open Scope Z_scope.
Implicit Types (st : BoltStore C) (r : http.Request) (s rec : Session)
  (w : http.ResponseWriter) (session : sessions.Session).



End resumed.

(** ** The sequence-keyed store: what [Save] writes *)

Section written.
Context {C : Type} `{securecookie.Codec C}.
Import boltstore spec.
Local Open Scope Z_scope.
Implicit Types (st : BoltStore C) (r : http.Request) (s rec : Session)
  (w : http.ResponseWriter) (session : sessions.Session).

(** The records after a save: unchanged, or one record deleted (negative
    max-age), or one record written, over the resolved record or under a
    key that was free. *)
Lemma Save_records st r w session t0 now rnd :
  let age := sessions.MaxAge (sessions.Opts session) in
  let out := Save st r w session t0 now rnd in
  records (saved_store out) = records st \/
  (age < 0 /\ exists k, records (saved_store out) = delete k (records st)) \/
  (0 <= age /\
   exists k rec data,
     records (saved_store out) = <[k := rec]> (records st) /\
     ((exists s, is_Some (records st !! k) /\ rec = refreshed s data now age) \/
      (records st !! k = None /\ rec = fresh rnd data now age))).
Proof.
  cbv zeta.
  destruct (decide (sessions.MaxAge (sessions.Opts session) < 0)) as [Hneg|Hage].
  - pose proof (Save_delete_path st r w session t0 now rnd Hneg) as Hout.
    cbv zeta in Hout.
    destruct (getSessionFromCookie _ _ _ _) as [s|]; rewrite Hout.
    + right; left. split; [done|]. by exists (ID s).
    + by left.
  - apply Z.nlt_ge in Hage.
    destruct (securecookie.EncodeMulti now (sessions.Name session)
                (securecookie.PValues (sessions.Values session)) (Codecs st))
      as [data|e] eqn:Henc.
    2:{ rewrite (Save_payload_failure _ _ _ _ _ _ _ _ Hage Henc). by left. }
    destruct (getSessionFromCookie st r (sessions.Name session) t0)
      as [s|] eqn:Hs.
    + rewrite (Save_update_path _ _ _ _ _ _ _ _ _ Hage Hs Henc).
      destruct (getSessionFromCookie_Some _ _ _ _ _ Hs) as (rec & Hk & _).
      right; right. split; [done|].
      exists (ID s), (refreshed s data now (sessions.MaxAge (sessions.Opts session))), data.
      split;
        [by destruct (securecookie.EncodeMulti _ _ (securecookie.PUint64 _) _)|].
      left. exists s. by rewrite Hk.
    + rewrite (Save_insert_path _ _ _ _ _ _ _ _ Hage Hs Henc).
      destruct (records st !! _) as [?|] eqn:Hfree; [by left|].
      right; right. split; [done|].
      eexists _, _, data.
      split;
        [by destruct (securecookie.EncodeMulti _ _ (securecookie.PUint64 _) _)|].
      right. done.
Qed.

(** Claim C6 (amended).  For a max-age of at most 9223372036 seconds, every
    record a save writes has updated-at = the time of the save and
    expires-at = updated-at + max-age seconds, and created-at = updated-at
    when it is written under a key that held no record; and the invariant
    that every stored record expires a whole representable number of seconds
    after its update is kept by every save and every sweep. *)
Theorem saved_record_expires_max_age_after_update
    st r w session t0 now rnd :
  sessions.MaxAge (sessions.Opts session) <= time.maxSeconds ->
  let age := sessions.MaxAge (sessions.Opts session) in
  let out := Save st r w session t0 now rnd in
  (forall k rec,
      records (saved_store out) !! k = Some rec ->
      records st !! k <> Some rec ->
      0 <= age /\ UpdatedAt rec = now /\
      ExpiresAt rec = UpdatedAt rec + age * 1000000000 /\
      (records st !! k = None -> CreatedAt rec = UpdatedAt rec)) /\
  (expiryInvariant st -> expiryInvariant (saved_store out)) /\
  (forall t, expiryInvariant st -> expiryInvariant (Cleanup st t)).
Proof.
  intros Hmax. cbv zeta.
  pose proof (Save_records st r w session t0 now rnd) as Hshape.
  cbv zeta in Hshape.
  split; [|split].
  - intros k rec Hk Hnew.
    destruct Hshape as [Heq|[(_ & k0 & Heq)|(Hage & k0 & rec0 & data & Heq & Hrec0)]];
      rewrite Heq in Hk.
    + done.
    + apply lookup_delete_Some in Hk as [_ Hk]. done.
    + apply lookup_insert_Some in Hk as [[<- <-]|[_ Hk]]; [|done].
      split; [done|].
      destruct Hrec0 as [(s & Hsome & ->)|[Hfree ->]]; simpl;
        rewrite expireAfter_in_range by lia.
      * repeat split. intros Hnone. rewrite Hnone in Hsome.
        by destruct Hsome.
      * done.
  - intros Hinv k rec Hk.
    destruct Hshape as [Heq|[(_ & k0 & Heq)|(Hage & k0 & rec0 & data & Heq & Hrec0)]];
      rewrite Heq in Hk.
    + by apply (Hinv k).
    + apply lookup_delete_Some in Hk as [_ Hk]. by apply (Hinv k).
    + apply lookup_insert_Some in Hk as [[<- <-]|[_ Hk]]; [|by apply (Hinv k)].
      exists (sessions.MaxAge (sessions.Opts session)). split; [lia|].
      destruct Hrec0 as [(s & _ & ->)|[_ ->]]; simpl;
        by rewrite expireAfter_in_range by lia.
  - intros t Hinv k rec Hk. unfold records, Cleanup, with_store in Hk.
    cbn [store] in Hk. apply DeleteMatching_lookup in Hk as [Hk _].
    by apply (Hinv k).
Qed.

(** Claim C9 (amended).  Whenever [Save] returns an error, an encoding
    failure included, no cookie has been added to the response; and when it
    is the payload that cannot be encoded, the store is left as it was. *)
Theorem failed_save_sets_no_cookie st r w session t0 now rnd :
  let out := Save st r w session t0 now rnd in
  (forall e, saved_err out = Some e -> saved_response out = w) /\
  (forall e,
      0 <= sessions.MaxAge (sessions.Opts session) ->
      securecookie.EncodeMulti now (sessions.Name session)
        (securecookie.PValues (sessions.Values session)) (Codecs st) = Err e ->
      saved_err out = Some e /\ saved_store out = st /\ saved_response out = w).
Proof.
  cbv zeta. split.
  - intros e.
    destruct (decide (sessions.MaxAge (sessions.Opts session) < 0)) as [Hneg|Hage].
    + pose proof (Save_delete_path st r w session t0 now rnd Hneg) as Hout.
      cbv zeta in Hout.
      destruct (getSessionFromCookie _ _ _ _); rewrite Hout; done.
    + apply Z.nlt_ge in Hage.
      destruct (securecookie.EncodeMulti now (sessions.Name session)
                  (securecookie.PValues (sessions.Values session)) (Codecs st))
        as [data|e'] eqn:Henc.
      2:{ by rewrite (Save_payload_failure _ _ _ _ _ _ _ _ Hage Henc). }
      destruct (getSessionFromCookie st r (sessions.Name session) t0)
        as [s|] eqn:Hs.
      * rewrite (Save_update_path _ _ _ _ _ _ _ _ _ Hage Hs Henc).
        by destruct (securecookie.EncodeMulti _ _ (securecookie.PUint64 _) _).
      * rewrite (Save_insert_path _ _ _ _ _ _ _ _ Hage Hs Henc).
        destruct (records st !! _); [done|].
        by destruct (securecookie.EncodeMulti _ _ (securecookie.PUint64 _) _).
  - intros e Hage Henc.
    by rewrite (Save_payload_failure _ _ _ _ _ _ _ _ Hage Henc).
Qed.
End written.

(** ** securecookie: which codec produced or accepted a token *)

Section multi_facts.
Context {C : Type} `{securecookie.Codec C}.
Import securecookie.

Lemma EncodeMulti_Ok now name p (codecs : list C) tok :
  EncodeMulti now name p codecs = Ok tok ->
  exists c, c ∈ codecs /\ Encode c now name p = Ok tok.
Proof.
  unfold EncodeMulti. destruct codecs as [|c0 cs0]; [discriminate|].
  generalize (c0 :: cs0). intros codecs. induction codecs as [|c cs IH]; simpl.
  - discriminate.
  - destruct (Encode c now name p) as [tok'|e] eqn:Henc.
    + intros [= ->]. exists c. split; [apply list_elem_of_here|done].
    + intros Hrest. destruct (IH Hrest) as (c' & Hin & Hc').
      exists c'. split; [by apply list_elem_of_further|done].
Qed.

Lemma DecodeMulti_Ok now name value k (codecs : list C) (v : target k) :
  DecodeMulti now name value k codecs = Ok v ->
  exists c, c ∈ codecs /\ Decode c now name value k = Ok v.
Proof.
  unfold DecodeMulti. destruct codecs as [|c0 cs0]; [discriminate|].
  generalize (c0 :: cs0). intros codecs. induction codecs as [|c cs IH]; simpl.
  - discriminate.
  - destruct (Decode c now name value k) as [v'|e] eqn:Hdec.
    + intros [= ->]. exists c. split; [apply list_elem_of_here|done].
    + intros Hrest. destruct (IH Hrest) as (c' & Hin & Hc').
      exists c'. split; [by apply list_elem_of_further|done].
Qed.

(** With typed codecs, a token decodes only into the type it was made
    from. *)
Lemma DecodeMulti_kind `{!Typed C} now now' name p (codecs codecs' : list C)
    tok k (v : target k) :
  EncodeMulti now name p codecs = Ok tok ->
  DecodeMulti now' name tok k codecs' = Ok v ->
  kindOf p = k.
Proof.
  intros (c & _ & Henc)%EncodeMulti_Ok (c' & _ & Hdec)%DecodeMulti_Ok.
  eapply decode_kind; eauto.
Qed.
End multi_facts.

(** ** The sequence-keyed store: the cookie [Save] writes *)

Section cookie.
Context {C : Type} `{securecookie.Codec C}.
Import boltstore spec.
Local Open Scope Z_scope.
Implicit Types (st : BoltStore C) (r : http.Request) (s rec : Session)
  (w : http.ResponseWriter) (session : sessions.Session).

(** [Save] touches the bucket only: codecs and options stay. *)
Lemma Save_keeps_config st r w session t0 now rnd :
  exists db, saved_store (Save st r w session t0 now rnd) = with_store db st.
Proof.
  assert (st = with_store (store st) st) as Hst by (by destruct st).
  unfold Save. repeat case_match; simpl; eauto.
Qed.

(** A successful save with non-negative max-age ends by encoding the
    storage key of the record it wrote and setting that token as the
    cookie's value. *)
Lemma Save_success_cookie st r w session t0 now rnd :
  0 <= sessions.MaxAge (sessions.Opts session) ->
  let out := Save st r w session t0 now rnd in
  saved_err out = None ->
  exists key rec tok,
    records (saved_store out) !! key = Some rec /\
    sequence_key_of st r session t0 = key /\
    securecookie.EncodeMulti now (sessions.Name session)
      (securecookie.PUint64 key) (Codecs st) = Ok tok /\
    saved_response out
    = http.SetCookie w
        (sessions.NewCookie now (sessions.Name session) tok
           (sessions.Opts session)).
Proof.
  intros Hage. cbv zeta. unfold sequence_key_of.
  destruct (securecookie.EncodeMulti now (sessions.Name session)
              (securecookie.PValues (sessions.Values session)) (Codecs st))
    as [data|e] eqn:Henc.
  2:{ by rewrite (Save_payload_failure _ _ _ _ _ _ _ _ Hage Henc). }
  destruct (getSessionFromCookie st r (sessions.Name session) t0)
    as [s|] eqn:Hs.
  - rewrite (Save_update_path _ _ _ _ _ _ _ _ _ Hage Hs Henc).
    destruct (securecookie.EncodeMulti _ _ (securecookie.PUint64 _) _)
      as [tok|e] eqn:Hid; [|done].
    intros _. eexists (ID s), _, tok. unfold records. simpl.
    rewrite lookup_insert_eq. done.
  - rewrite (Save_insert_path _ _ _ _ _ _ _ _ Hage Hs Henc).
    destruct (records st !! _); [done|].
    destruct (securecookie.EncodeMulti _ _ (securecookie.PUint64 _) _)
      as [tok|e] eqn:Hid; [|done].
    intros _. eexists _, _, tok. unfold records. simpl.
    rewrite lookup_insert_eq. done.
Qed.
End cookie.

Section cookie_claims.
Context {C : Type} `{securecookie.Codec C}.
Import boltstore spec.
Local Open Scope Z_scope.
Implicit Types (st : BoltStore C) (r : http.Request) (s rec : Session)
  (w : http.ResponseWriter) (session : sessions.Session).

(** Claim C2 (what the code does instead).  The one field the cookie of a
    successful save encodes is the uint64 storage key of the record just
    written, the bucket's sequence number on a first save, and not the
    session identifier stored in the record's field [Session]. *)
Theorem saved_cookie_encodes_storage_key st r w session t0 now rnd :
  0 <= sessions.MaxAge (sessions.Opts session) ->
  let out := Save st r w session t0 now rnd in
  saved_err out = None ->
  exists rec tok,
    records (saved_store out) !! sequence_key_of st r session t0 = Some rec /\
    securecookie.EncodeMulti now (sessions.Name session)
      (securecookie.PUint64 (sequence_key_of st r session t0)) (Codecs st)
    = Ok tok /\
    saved_response out
    = w ++ [sessions.NewCookie now (sessions.Name session) tok
              (sessions.Opts session)].
Proof.
  intros Hage out Hok.
  destruct (Save_success_cookie st r w session t0 now rnd Hage Hok)
    as (key & rec & tok & Hrec & <- & Htok & Hresp).
  by exists rec, tok.
Qed.

(** Claim C1 (what the code does instead).  With codecs that decode a token
    only into the type it was encoded from, as gob and JSON do, the cookie a
    successful save attaches never resolves: it encodes a uint64, the lookup
    decodes a string.  [New] on a request carrying that cookie returns a
    session with is-new = true, no identifier and no values. *)
Theorem saved_cookie_does_not_resolve `{!securecookie.Typed C}
    st r w session t0 now rnd r' now' c :
  0 <= sessions.MaxAge (sessions.Opts session) ->
  let out := Save st r w session t0 now rnd in
  saved_err out = None ->
  last (saved_response out) = Some c ->
  http.Request_Cookie r' (sessions.Name session) = Ok (http.Value c) ->
  resolved_session (New (saved_store out) r' (sessions.Name session) now')
  = sessions.mkSession "" ∅ (Options st) true (sessions.Name session) /\
  resolved_err (New (saved_store out) r' (sessions.Name session) now') = None.
Proof.
  intros Hage out Hok Hlast Hreq.
  destruct (Save_success_cookie st r w session t0 now rnd Hage Hok)
    as (key & rec & tok & _ & _ & Htok & Hresp).
  fold out in Hresp. rewrite Hresp in Hlast. unfold http.SetCookie in Hlast.
  rewrite last_snoc in Hlast. injection Hlast as <-. simpl in Hreq.
  destruct (Save_keeps_config st r w session t0 now rnd) as [db Hcfg].
  fold out in Hcfg. rewrite Hcfg.
  change (Options st) with (Options (with_store db st)).
  apply New_unresolved. apply getSessionFromCookie_None. right; left.
  destruct (securecookie.DecodeMulti now' (sessions.Name session) tok
              securecookie.KString
              (Codecs (MaxAge (with_store db st)
                         (sessions.MaxAge (Options (with_store db st))))))
    as [sid|e] eqn:Hdec.
  - pose proof (DecodeMulti_kind _ _ _ _ _ _ _ _ _ Htok Hdec). discriminate.
  - by exists tok, e.
Qed.

(** Negative max-age on the sequence-keyed store: the record the cookie
    resolves to is deleted, the deletion cookie (empty value, the session's
    negative max-age) is added, and there is no error, whether or not a
    record resolved. *)
Lemma Save_logout st r w session t0 now rnd :
  sessions.MaxAge (sessions.Opts session) < 0 ->
  let out := Save st r w session t0 now rnd in
  saved_err out = None /\
  (exists c,
      saved_response out = w ++ [c] /\ http.Value c = ""%string /\
      http.MaxAge c = sessions.MaxAge (sessions.Opts session) /\
      http.Name c = sessions.Name session) /\
  match getSessionFromCookie st r (sessions.Name session) t0 with
  | Some s =>
      records (saved_store out) = delete (ID s) (records st) /\
      records (saved_store out) !! ID s = None
  | None => saved_store out = st
  end.
Proof.
  intros Hneg. cbv zeta.
  pose proof (Save_delete_path st r w session t0 now rnd Hneg) as Hout.
  cbv zeta in Hout.
  destruct (getSessionFromCookie _ _ _ _) as [s|]; rewrite Hout; simpl.
  - split; [done|]. split; [by eexists|].
    unfold records; simpl. by rewrite lookup_delete_eq.
  - split; [done|]. split; [by eexists|done].
Qed.
End cookie_claims.

(** ** The transparent codec is typed *)

Global Instance plain_typed : securecookie.Typed plain.PlainCodec.
Proof.
  intros c c' t t' n p tok k v. simpl. unfold plain.encode, plain.decode.
  destruct (plain.serializes c _); [|discriminate].
  intros [= <-].
  destruct (Ascii.eqb _ _) eqn:Htag; [|discriminate].
  intros _. destruct p, k; simpl in Htag; done.
Qed.

(** ** The string-keyed store *)

Section string_keyed.
Context {C : Type} `{securecookie.Codec C}.
Local Open Scope Z_scope.
Implicit Types (m : part000.Store C) (r : http.Request)
  (w : http.ResponseWriter) (session : sessions.Session).

Lemma part000_New_blank m name :
  sessions.with_IsNew true
    (sessions.with_Options
       (sessions.mkOptions (sessions.Path (part000.Options m))
          (sessions.Domain (part000.Options m))
          (sessions.MaxAge (part000.Options m))
          (sessions.Secure (part000.Options m))
          (sessions.HttpOnly (part000.Options m))
          (sessions.SameSite (part000.Options m)))
       (sessions.NewSession name))
  = spec.blank (part000.Options m) name.
Proof. unfold spec.blank. by destruct (part000.Options m). Qed.

(** No cookie: the new session comes with [http.ErrNoCookie]. *)
Lemma part000_New_no_cookie m r name now :
  http.Request_Cookie r name = Err ErrNoCookie ->
  part000.New m r name now = (spec.blank (part000.Options m) name, Some ErrNoCookie).
Proof.
  intros Hc. unfold part000.New. rewrite Hc, part000_New_blank. done.
Qed.

(** A cookie that fails to decode: the new session comes with the decoding
    error. *)
Lemma part000_New_decode_failure m r name now cookie e :
  http.Request_Cookie r name = Ok cookie ->
  securecookie.DecodeMulti now name cookie securecookie.KString
    (part000.Codecs m) = Err e ->
  part000.New m r name now = (spec.blank (part000.Options m) name, Some e).
Proof.
  intros Hc Hd. unfold part000.New. rewrite Hc, Hd, part000_New_blank. done.
Qed.

(** A cookie whose identifier has no record: the session is new, carries
    the decoded identifier, and there is no error. *)
Lemma part000_New_not_found m r name now cookie (id : string) :
  http.Request_Cookie r name = Ok cookie ->
  securecookie.DecodeMulti now name cookie securecookie.KString
    (part000.Codecs m) = Ok id ->
  bolthold.bucket (part000.store m) !! id = None ->
  part000.New m r name now
  = (sessions.with_ID id (spec.blank (part000.Options m) name), None).
Proof.
  intros Hc Hd Hnone. unfold part000.New.
  rewrite Hc, Hd, part000_New_blank.
  unfold part000.load, bolthold.Get.
  cbn [sessions.ID sessions.with_ID spec.blank]. rewrite Hnone.
  by destruct (decide (ErrNotFound = ErrNotFound)).
Qed.

(** Negative max-age: the record under the working session's identifier is
    deleted and the deletion cookie written, or, when there is none, the
    error of [Delete] is returned and nothing else happens. *)
Lemma part000_Save_delete_path m w session now rnd :
  sessions.MaxAge (sessions.Opts session) < 0 ->
  part000.Save m w session now rnd =
  match bolthold.bucket (part000.store m) !! sessions.ID session with
  | Some _ =>
      part000.mkSaved
        (part000.with_store
           (bolthold.mkStore
              (delete (sessions.ID session) (bolthold.bucket (part000.store m)))
              (bolthold.sequence (part000.store m))) m)
        (http.SetCookie w
           (sessions.NewCookie now (sessions.Name session) ""
              (sessions.Opts session)))
        session None
  | None => part000.mkSaved m w session (Some ErrNotFound)
  end.
Proof.
  intros Hneg. unfold part000.Save. apply Z.ltb_lt in Hneg. rewrite Hneg.
  unfold part000.delete, bolthold.Delete.
  destruct (bolthold.bucket (part000.store m) !! _); done.
Qed.

(** The cookie of a successful save encodes the session identifier, the
    string under which the record is stored. *)
Lemma part000_Save_cookie m w session now rnd :
  0 <= sessions.MaxAge (sessions.Opts session) ->
  let out := part000.Save m w session now rnd in
  part000.saved_err out = None ->
  exists tok,
    securecookie.EncodeMulti now (sessions.Name session)
      (securecookie.PString (sessions.ID (part000.saved_session out)))
      (part000.Codecs m) = Ok tok /\
    part000.saved_response out
    = w ++ [sessions.NewCookie now (sessions.Name session) tok
              (sessions.Opts session)] /\
    is_Some (bolthold.bucket (part000.store (part000.saved_store out))
               !! sessions.ID (part000.saved_session out)).
Proof.
  intros Hage. cbv zeta. unfold part000.Save.
  apply Z.ltb_ge in Hage. rewrite Hage.
  set (session' := if decide (sessions.ID session = ""%string) then _ else _).
  assert (sessions.Name session' = sessions.Name session /\
          sessions.Opts session' = sessions.Opts session) as [Hn Ho].
  { unfold session'. by destruct (decide _). }
  rewrite Hn, Ho.
  destruct (part000.upsert m session' now) as [db|e] eqn:Hup; [|done].
  destruct (securecookie.EncodeMulti _ _ (securecookie.PString _) _)
    as [tok|e] eqn:Henc; [|done].
  intros _. exists tok. simpl. repeat split; [done|].
  unfold part000.upsert, bolthold.Upsert in Hup.
  repeat case_match; try discriminate; injection Hup as <-; simpl;
    by rewrite lookup_insert_eq.
Qed.

(** Claim C4 (where the code departs from it).  In the string-keyed store a
    save with negative max-age for a session that has no stored record
    returns the error of the failed delete, writes no cookie and leaves the
    store as it was. *)
Theorem part000_logout_without_record_fails m w session now rnd :
  sessions.MaxAge (sessions.Opts session) < 0 ->
  bolthold.bucket (part000.store m) !! sessions.ID session = None ->
  part000.Save m w session now rnd
  = part000.mkSaved m w session (Some ErrNotFound).
Proof.
  intros Hneg Hnone. by rewrite part000_Save_delete_path, Hnone.
Qed.
End string_keyed.

(** ** Requests that do not resolve *)

Section unresolved.
Context {C : Type} `{securecookie.Codec C}.
Import boltstore spec.
Local Open Scope Z_scope.

(** Claim C8 (amended).  A request whose cookie is absent, fails to decode,
    or refers to no live record gets a session with is-new = true.  From the
    sequence-keyed store that session has no identifier and no values and
    comes without error.  From the string-keyed store a cookie that fails to
    decode gives a session without identifier together with the decoding
    error, and a cookie whose identifier has no record gives no error and a
    session that keeps the decoded identifier. *)
Theorem unresolvable_request_gets_new_session :
  (forall (st : BoltStore C) r name now,
      unresolvable (MaxAge st (sessions.MaxAge (Options st))) r name now ->
      resolved_session (New st r name now)
      = sessions.mkSession "" ∅ (Options st) true name /\
      resolved_err (New st r name now) = None) /\
  (forall (m : part000.Store C) r name now,
      (http.Request_Cookie r name = Err ErrNoCookie ->
       sessions.IsNew (fst (part000.New m r name now)) = true) /\
      (forall cookie e,
          http.Request_Cookie r name = Ok cookie ->
          securecookie.DecodeMulti now name cookie securecookie.KString
            (part000.Codecs m) = Err e ->
          part000.New m r name now
          = (sessions.mkSession "" ∅ (part000.Options m) true name, Some e)) /\
      (forall cookie (id : string),
          http.Request_Cookie r name = Ok cookie ->
          securecookie.DecodeMulti now name cookie securecookie.KString
            (part000.Codecs m) = Ok id ->
          bolthold.bucket (part000.store m) !! id = None ->
          part000.New m r name now
          = (sessions.mkSession id ∅ (part000.Options m) true name, None))).
Proof.
  split.
  - intros st r name now Hun. apply New_unresolved.
    by apply getSessionFromCookie_None.
  - intros m r name now. split; [|split].
    + intros Hc. by rewrite part000_New_no_cookie.
    + intros cookie e Hc Hd.
      by rewrite (part000_New_decode_failure _ _ _ _ _ _ Hc Hd).
    + intros cookie id Hc Hd Hnone.
      by rewrite (part000_New_not_found _ _ _ _ _ _ Hc Hd Hnone).
Qed.
End unresolved.

(** ** The scenarios *)

Section scenarios.
Import boltstore spec scenario.
Local Open Scope Z_scope.

(** The concrete scenario of the specification: a first save of the values
    of alice with a max-age of 3600 seconds issues a cookie; resolving that
    cookie at once gives a new, empty session. *)
Example first_save_then_resolve :
  let out := Save st0 reqNone [] session1 0 0 rnd in
  saved_err out = None /\
  saved_response out = [cookieIssued] /\
  records (saved_store out) !! 1%N
  = Some (mkSession 0 "AAAAAAAAAAAAAAAAAAAAAAAAAAAAAAAAAAAAAAAAAAAAAAAAAAAA"
            aliceData 0 0 hour) /\
  resolved_session (New (saved_store out) reqIssued "sid" 0)
  = sessions.mkSession "" ∅ options true "sid".
Proof. vm_compute. repeat split; reflexivity. Qed.

(** Had the cookie carried the session identifier, the session would have
    been resumed. *)
Example identifier_cookie_resolves :
  resolved_session
    (New (saved_store (Save st0 reqNone [] session1 0 0 rnd))
       (http.mkRequest
          [("sid", "s3:sidAAAAAAAAAAAAAAAAAAAAAAAAAAAAAAAAAAAAAAAAAAAAAAAAAAAA")]%string)
       "sid" 0)
  = sessions.mkSession "AAAAAAAAAAAAAAAAAAAAAAAAAAAAAAAAAAAAAAAAAAAAAAAAAAAA"
      alice options false "sid".
Proof. vm_compute. reflexivity. Qed.

(** The string-keyed store does make the round trip. *)
Example part000_round_trip :
  let out := part000.Save m0 [] session1 0 rnd in
  part000.saved_err out = None /\
  (http.Value <$> last (part000.saved_response out))
  = Some "s3:sidAAAAAAAAAAAAAAAAAAAAAAAAAAAAAAAAAAAAAAAAAAAAAAAAAAAA"%string /\
  part000.New (part000.saved_store out)
    (http.mkRequest
       [("sid", "s3:sidAAAAAAAAAAAAAAAAAAAAAAAAAAAAAAAAAAAAAAAAAAAAAAAAAAAA")]%string)
    "sid" 0
  = (sessions.mkSession "AAAAAAAAAAAAAAAAAAAAAAAAAAAAAAAAAAAAAAAAAAAAAAAAAAAA"
       alice options false "sid", None).
Proof. vm_compute. repeat split; reflexivity. Qed.

Lemma saved_cookie_does_not_resolve_witness :
  saved_err (Save st0 reqNone [] session1 0 0 rnd) = None /\
  last (saved_response (Save st0 reqNone [] session1 0 0 rnd))
  = Some cookieIssued /\
  http.Request_Cookie reqIssued "sid" = Ok issued /\
  resolved_session (New stSaved reqIssued "sid" 7)
  = sessions.mkSession "" ∅ options true "sid".
Proof.
  assert (H1 : saved_err (Save st0 reqNone [] session1 0 0 rnd) = None)
    by (vm_compute; reflexivity).
  assert (H2 : last (saved_response (Save st0 reqNone [] session1 0 0 rnd))
               = Some cookieIssued) by (vm_compute; reflexivity).
  assert (H3 : http.Request_Cookie reqIssued "sid" = Ok issued)
    by (vm_compute; reflexivity).
  split; [exact H1|]. split; [exact H2|]. split; [exact H3|].
  exact (proj1 (saved_cookie_does_not_resolve st0 reqNone [] session1 0 0 rnd
                  reqIssued 7 cookieIssued ltac:(simpl; lia) H1 H2 H3)).
Defined.

Lemma saved_cookie_encodes_storage_key_witness :
  saved_err (Save st0 reqNone [] session1 0 0 rnd) = None /\
  exists rec tok,
    records stSaved !! 1%N = Some rec /\
    securecookie.EncodeMulti 0 "sid" (securecookie.PUint64 1) codecs = Ok tok /\
    saved_response (Save st0 reqNone [] session1 0 0 rnd)
    = [sessions.NewCookie 0 "sid" tok options].
Proof.
  assert (H1 : saved_err (Save st0 reqNone [] session1 0 0 rnd) = None)
    by (vm_compute; reflexivity).
  split; [exact H1|].
  exact (saved_cookie_encodes_storage_key st0 reqNone [] session1 0 0 rnd
           ltac:(simpl; lia) H1).
Defined.


Lemma part000_logout_without_record_fails_witness :
  part000.Save m0 [] sessionGone 0 rnd
  = part000.mkSaved m0 [] sessionGone (Some ErrNotFound).
Proof.
  exact (part000_logout_without_record_fails m0 [] sessionGone 0 rnd
           ltac:(simpl; lia) ltac:(vm_compute; reflexivity)).
Defined.

End scenarios.

Section more_scenarios.
Import boltstore spec scenario.
Local Open Scope Z_scope.

(** A max-age of 9223372037 seconds overflows the int64 duration: the
    record of a save at time 0 expires far in the past, not 9223372037
    seconds after its update. *)
Lemma huge_max_age_expires_in_the_past :
  let out := Save st0 reqNone [] sessionHuge 0 0 rnd in
  saved_err out = None /\
  exists rec,
    records (saved_store out) !! 1%N = Some rec /\
    UpdatedAt rec = 0 /\ ExpiresAt rec = -9223372036709551616 /\
    ExpiresAt rec <> UpdatedAt rec + 9223372037 * 1000000000.
Proof.
  cbv zeta. split; [vm_compute; reflexivity|].
  eexists. split; [vm_compute; reflexivity|].
  split; [reflexivity|]. split; [reflexivity|]. vm_compute. discriminate.
Qed.

Lemma saved_record_expires_max_age_after_update_witness :
  sessions.MaxAge (sessions.Opts session1) <= time.maxSeconds /\
  forall k rec,
    records stSaved !! k = Some rec ->
    records st0 !! k <> Some rec ->
    0 <= 3600 /\ UpdatedAt rec = 0 /\
    ExpiresAt rec = UpdatedAt rec + 3600 * 1000000000 /\
    (records st0 !! k = None -> CreatedAt rec = UpdatedAt rec).
Proof.
  assert (H1 : sessions.MaxAge (sessions.Opts session1) <= time.maxSeconds)
    by (vm_compute; discriminate).
  split; [exact H1|].
  exact (proj1 (saved_record_expires_max_age_after_update
                  st0 reqNone [] session1 0 0 rnd H1)).
Defined.

Lemma sweep_removes_expired_and_is_idempotent_witness :
  expired (Cleanup st1 hour) (hour + 1) = ∅ /\
  Cleanup (Cleanup st1 hour) (hour + 1) = Cleanup st1 hour.
Proof.
  assert (H1 : expired (Cleanup st1 hour) (hour + 1) = ∅)
    by (vm_compute; reflexivity).
  split; [exact H1|].
  exact (proj2 (proj2 (proj2 (sweep_removes_expired_and_is_idempotent st1 hour)))
           (hour + 1) H1).
Defined.

(** The string-keyed store hands the decoding error of a tampered cookie
    to the caller. *)
Lemma string_keyed_store_surfaces_decode_error :
  http.Request_Cookie reqBad "sid" = Ok "x3:sidABC"%string /\
  securecookie.DecodeMulti 0 "sid" "x3:sidABC" securecookie.KString codecs
  = Err ErrDecode /\
  snd (part000.New m1 reqBad "sid" 0) = Some ErrDecode.
Proof. vm_compute. split; [|split]; reflexivity. Qed.

(** And it hands [http.ErrNoCookie] to the caller of a first request. *)
Example string_keyed_store_no_cookie :
  part000.New m1 reqNone "sid" 0
  = (sessions.mkSession "" ∅ options true "sid", Some ErrNoCookie).
Proof. vm_compute. reflexivity. Qed.

Lemma unresolvable_request_gets_new_session_witness :
  unresolvable (MaxAge st1 (sessions.MaxAge (Options st1))) reqBad "sid" 0 /\
  resolved_session (New st1 reqBad "sid" 0)
  = sessions.mkSession "" ∅ options true "sid" /\
  resolved_err (New st1 reqBad "sid" 0) = None.
Proof.
  assert (H1 : unresolvable (MaxAge st1 (sessions.MaxAge (Options st1)))
                 reqBad "sid" 0).
  { right; left. exists "x3:sidABC"%string, ErrDecode.
    split; vm_compute; reflexivity. }
  split; [exact H1|].
  exact (proj1 (unresolvable_request_gets_new_session (C := plain.PlainCodec))
           st1 reqBad "sid" 0 H1).
Defined.

(** With a codec that cannot encode the storage key, [Save] returns the
    encoding failure and sets no cookie, but the record it inserted before
    stays in the store. *)
Lemma key_encoding_failure_leaves_record :
  let out := Save stNoUint reqNone [] session1 0 0 rnd in
  saved_err out = Some ErrEncode /\
  saved_response out = [] /\
  records stNoUint !! 1%N = None /\
  records (saved_store out) !! 1%N
  = Some (mkSession 0 "AAAAAAAAAAAAAAAAAAAAAAAAAAAAAAAAAAAAAAAAAAAAAAAAAAAA"
            aliceData 0 0 hour) /\
  saved_store out <> stNoUint.
Proof.
  cbv zeta. split; [vm_compute; reflexivity|]. split; [vm_compute; reflexivity|].
  split; [vm_compute; reflexivity|]. split; [vm_compute; reflexivity|].
  intros Heq. apply (f_equal (fun st => records st !! 1%N)) in Heq.
  vm_compute in Heq. discriminate.
Qed.

Lemma failed_save_sets_no_cookie_witness :
  securecookie.EncodeMulti 0 "sid" (securecookie.PValues alice)
    (Codecs stNoCodecs) = Err ErrNoCodecs /\
  saved_err (Save stNoCodecs reqNone [] session1 0 0 rnd) = Some ErrNoCodecs /\
  saved_store (Save stNoCodecs reqNone [] session1 0 0 rnd) = stNoCodecs /\
  saved_response (Save stNoCodecs reqNone [] session1 0 0 rnd) = [].
Proof.
  assert (H1 : securecookie.EncodeMulti 0 "sid" (securecookie.PValues alice)
                 (Codecs stNoCodecs) = Err ErrNoCodecs) by reflexivity.
  split; [exact H1|].
  exact (proj2 (failed_save_sets_no_cookie stNoCodecs reqNone [] session1 0 0 rnd)
           ErrNoCodecs ltac:(simpl; lia) H1).
Defined.

End more_scenarios.

(** * Further properties of the stores *)

(** ** Lookup of a record whose identifier is unique *)

Section unique_lookup.
Context {C : Type} `{securecookie.Codec C}.
Import boltstore spec.
Local Open Scope Z_scope.
Implicit Types (st : BoltStore C) (r : http.Request) (s rec : Session)
  (w : http.ResponseWriter) (session : sessions.Session).

Lemma FindOne_unique {K : Type} `{Countable K} {A : Type}
    (setKey : K -> A -> A) (db : bolthold.Store K A) (q : A -> bool) k a :
  bolthold.bucket db !! k = Some a -> q a = true ->
  (forall k' a', bolthold.bucket db !! k' = Some a' -> q a' = true -> k' = k) ->
  bolthold.FindOne setKey db q = Ok (setKey k a).
Proof.
  intros Hk Hq Huniq.
  destruct (bolthold.FindOne setKey db q) as [x|e] eqn:Hf.
  - apply FindOne_Ok in Hf as (k' & a' & Hk' & Hq' & ->).
    assert (k' = k) by eauto. subst k'.
    assert (a' = a) by congruence. by subst.
  - pose proof (FindOne_Err _ _ _ _ Hf k a Hk). congruence.
Qed.

(** With unique identifiers, a request that carries the identifier of a live
    record resolves to that record, read back under its key. *)
Lemma getSessionFromCookie_unique st r name now k rec :
  uniqueIdentifiers st ->
  records st !! k = Some rec ->
  carries (Codecs st) r name now (Session_ rec) ->
  now < ExpiresAt rec ->
  getSessionFromCookie st r name now = Some (setID k rec).
Proof.
  intros Huniq Hk (cookie & Hc & Hd) Hlive.
  unfold getSessionFromCookie. rewrite Hc, Hd.
  rewrite (FindOne_unique setID (store st) _ k rec); [done|done| |].
  - unfold liveWithIdentifier. rewrite String.eqb_refl. simpl.
    by apply Z.ltb_lt.
  - intros k' rec' Hk' Hq. unfold liveWithIdentifier in Hq.
    apply andb_true_iff in Hq as [Hs _]. apply String.eqb_eq in Hs.
    by apply (Huniq k' k rec' rec).
Qed.

(** A successful save with non-negative max-age: the bucket is the old one
    with the written record put under its storage key. *)
Lemma Save_success_store st r w session t0 now rnd :
  0 <= sessions.MaxAge (sessions.Opts session) ->
  saved_err (Save st r w session t0 now rnd) = None ->
  exists data,
    securecookie.EncodeMulti now (sessions.Name session)
      (securecookie.PValues (sessions.Values session)) (Codecs st) = Ok data /\
    records (saved_store (Save st r w session t0 now rnd))
    = <[sequence_key_of st r session t0
        := written st r session t0 now rnd data]> (records st) /\
    Codecs (saved_store (Save st r w session t0 now rnd)) = Codecs st /\
    Options (saved_store (Save st r w session t0 now rnd)) = Options st.
Proof.
  intros Hage. unfold sequence_key_of, written.
  destruct (securecookie.EncodeMulti now (sessions.Name session)
              (securecookie.PValues (sessions.Values session)) (Codecs st))
    as [data|e] eqn:Henc.
  2:{ by rewrite (Save_payload_failure _ _ _ _ _ _ _ _ Hage Henc). }
  destruct (getSessionFromCookie st r (sessions.Name session) t0)
    as [s|] eqn:Hs.
  - rewrite (Save_update_path _ _ _ _ _ _ _ _ _ Hage Hs Henc).
    destruct (securecookie.EncodeMulti _ _ (securecookie.PUint64 _) _);
      [|done].
    intros _. by exists data.
  - rewrite (Save_insert_path _ _ _ _ _ _ _ _ Hage Hs Henc).
    destruct (records st !! _); [done|].
    destruct (securecookie.EncodeMulti _ _ (securecookie.PUint64 _) _);
      [|done].
    intros _. by exists data.
Qed.

(** The record written by a successful save is found again by every request
    that carries its identifier, at every time before its deadline, and by
    none from the deadline on (identifiers being unique after the save). *)
Theorem saved_record_resolves_until_deadline
    st r w session t0 now rnd r' name' t' :
  0 <= sessions.MaxAge (sessions.Opts session) <= time.maxSeconds ->
  saved_err (Save st r w session t0 now rnd) = None ->
  uniqueIdentifiers (saved_store (Save st r w session t0 now rnd)) ->
  exists rec,
    records (saved_store (Save st r w session t0 now rnd))
      !! sequence_key_of st r session t0 = Some rec /\
    ExpiresAt rec
    = now + sessions.MaxAge (sessions.Opts session) * 1000000000 /\
    (carries (Codecs st) r' name' t' (Session_ rec) ->
     (t' < ExpiresAt rec ->
      getSessionFromCookie (saved_store (Save st r w session t0 now rnd))
        r' name' t'
      = Some (setID (sequence_key_of st r session t0) rec)) /\
     (ExpiresAt rec <= t' ->
      getSessionFromCookie (saved_store (Save st r w session t0 now rnd))
        r' name' t' = None)).
Proof.
  intros Hage Hok Huniq.
  destruct (Save_success_store st r w session t0 now rnd (proj1 Hage) Hok)
    as (data & _ & Hrecs & Hcodecs & _).
  set (out := Save st r w session t0 now rnd) in *.
  set (key := sequence_key_of st r session t0) in *.
  set (rec := written st r session t0 now rnd data) in *.
  assert (Hk : records (saved_store out) !! key = Some rec)
    by (by rewrite Hrecs, lookup_insert_eq).
  assert (Hexp : ExpiresAt rec
                 = now + sessions.MaxAge (sessions.Opts session) * 1000000000).
  { unfold rec, written.
    destruct (getSessionFromCookie _ _ _ _); simpl;
      by rewrite expireAfter_in_range. }
  exists rec. split; [done|]. split; [done|].
  intros Hcarries. rewrite <- Hcodecs in Hcarries. split.
  - intros Hlive. by apply getSessionFromCookie_unique.
  - intros Hdead. apply getSessionFromCookie_None. right; right.
    exists (Session_ rec). split; [done|].
    intros k' rec' Hk' Hsid.
    assert (k' = key) by (by apply (Huniq k' key rec' rec)). subst k'.
    assert (rec' = rec) by congruence. by subst.
Qed.

(** A request that carries the identifier of a live record whose payload
    decodes is resumed: is-new = false, the record's identifier, the decoded
    values, the store's options, no error. *)
Theorem live_record_is_resumed st r name now k rec values :
  uniqueIdentifiers st ->
  records st !! k = Some rec ->
  now < ExpiresAt rec ->
  carries (Codecs (MaxAge st (sessions.MaxAge (Options st)))) r name now
    (Session_ rec) ->
  securecookie.DecodeMulti now name (Data rec) securecookie.KValues
    (Codecs (MaxAge st (sessions.MaxAge (Options st)))) = Ok values ->
  resolved_session (New st r name now)
  = sessions.mkSession (Session_ rec) values (Options st) false name /\
  resolved_err (New st r name now) = None.
Proof.
  intros Huniq Hk Hlive Hcarries Hdec. unfold New.
  rewrite (getSessionFromCookie_unique
             (MaxAge st (sessions.MaxAge (Options st))) r name now k rec);
    [|done..].
  simpl. simpl in Hdec. rewrite Hdec. done.
Qed.

(** A request that carries the identifier of a live record whose payload does
    not decode gets a blank new session and no error, and the record stays
    where it is. *)
Theorem undecodable_payload_gives_new_session st r name now k rec e :
  uniqueIdentifiers st ->
  records st !! k = Some rec ->
  now < ExpiresAt rec ->
  carries (Codecs (MaxAge st (sessions.MaxAge (Options st)))) r name now
    (Session_ rec) ->
  securecookie.DecodeMulti now name (Data rec) securecookie.KValues
    (Codecs (MaxAge st (sessions.MaxAge (Options st)))) = Err e ->
  resolved_session (New st r name now)
  = sessions.mkSession "" ∅ (Options st) true name /\
  resolved_err (New st r name now) = None /\
  records (resolved_store (New st r name now)) !! k = Some rec.
Proof.
  intros Huniq Hk Hlive Hcarries Hdec. unfold New.
  rewrite (getSessionFromCookie_unique
             (MaxAge st (sessions.MaxAge (Options st))) r name now k rec);
    [|done..].
  simpl. simpl in Hdec. rewrite Hdec. done.
Qed.

(** [New] never writes: whatever the request, the records and the options of
    the store are as before (only the codecs are given the store's max-age),
    the session has the store's options and the requested name, and the
    error is nil. *)
Theorem New_reads_only st r name now :
  resolved_store (New st r name now)
  = MaxAge st (sessions.MaxAge (Options st)) /\
  records (resolved_store (New st r name now)) = records st /\
  Options (resolved_store (New st r name now)) = Options st /\
  sessions.Opts (resolved_session (New st r name now)) = Options st /\
  sessions.Name (resolved_session (New st r name now)) = name /\
  resolved_err (New st r name now) = None.
Proof.
  unfold New.
  destruct (getSessionFromCookie _ _ _ _) as [s|];
    [destruct (securecookie.DecodeMulti _ _ _ _ _)|];
    simpl; repeat split; by destruct st as [db cs []].
Qed.

(** Logout, then the same cookie again: the resolved record is deleted, every
    other record and the sequence counter stay, and the cookie no longer
    resolves. *)
Theorem logout_then_new_session st r w session t0 now rnd s t' :
  sessions.MaxAge (sessions.Opts session) < 0 ->
  getSessionFromCookie st r (sessions.Name session) t0 = Some s ->
  uniqueIdentifiers st ->
  records (saved_store (Save st r w session t0 now rnd)) !! ID s = None /\
  (forall k, k <> ID s ->
     records (saved_store (Save st r w session t0 now rnd)) !! k
     = records st !! k) /\
  bolthold.sequence (store (saved_store (Save st r w session t0 now rnd)))
  = bolthold.sequence (store st) /\
  (forall r' name',
     carries (Codecs (MaxAge st (sessions.MaxAge (Options st)))) r' name' t'
       (Session_ s) ->
     resolved_session
       (New (saved_store (Save st r w session t0 now rnd)) r' name' t')
     = sessions.mkSession "" ∅ (Options st) true name').
Proof.
  intros Hneg Hs Huniq.
  pose proof (Save_delete_path st r w session t0 now rnd Hneg) as Hout.
  cbv zeta in Hout. rewrite Hs in Hout. rewrite Hout. simpl.
  destruct (getSessionFromCookie_Some _ _ _ _ _ Hs) as (rec & Hk & Hrec & _).
  assert (Hsid : Session_ s = Session_ rec) by (by rewrite Hrec).
  unfold records at 1 2. simpl.
  split; [apply lookup_delete_eq|]. split; [intros; by apply lookup_delete_ne|].
  split; [done|].
  intros r' name' Hcarries.
  match goal with
  | |- resolved_session (New ?st' _ _ _) = _ =>
      change (Options st) with (Options st');
      apply (New_unresolved st' r' name' t')
  end.
  apply getSessionFromCookie_None. right; right.
  exists (Session_ s). split; [done|].
  intros k' rec' Hk' Hsid'. unfold records in Hk'. simpl in Hk'.
  apply lookup_delete_Some in Hk' as [Hne Hk'].
  rewrite Hsid in Hsid'. destruct Hne. symmetry. by apply (Huniq k' (ID s) rec' rec).
Qed.
End unique_lookup.

(** ** Sweeping *)

Section sweeping.
Context {C : Type} `{securecookie.Codec C}.
Import boltstore spec.
Local Open Scope Z_scope.
Implicit Types (st : BoltStore C) (r : http.Request) (s rec : Session).

Lemma Cleanup_lookup st now k rec :
  records (Cleanup st now) !! k = Some rec <->
  records st !! k = Some rec /\ now < ExpiresAt rec.
Proof.
  unfold records, Cleanup, with_store. cbn [store].
  rewrite DeleteMatching_lookup, Z.leb_gt. done.
Qed.

Lemma BoltStore_eq st st' :
  records st = records st' ->
  bolthold.sequence (store st) = bolthold.sequence (store st') ->
  Codecs st = Codecs st' -> Options st = Options st' -> st = st'.
Proof.
  destruct st as [[b n] cs o], st' as [[b' n'] cs' o']. unfold records.
  simpl. by intros -> -> -> ->.
Qed.

(** Two sweeps in a row amount to one sweep at the later of the two times;
    so sweeps commute. *)
Theorem sweeps_compose st t1 t2 :
  Cleanup (Cleanup st t1) t2 = Cleanup st (Z.max t1 t2) /\
  Cleanup (Cleanup st t1) t2 = Cleanup (Cleanup st t2) t1.
Proof.
  assert (Hmax : forall a b, Cleanup (Cleanup st a) b = Cleanup st (Z.max a b)).
  { intros a b. apply BoltStore_eq; [|done..].
    apply map_eq. intros k. apply option_eq. intros rec.
    rewrite !Cleanup_lookup. intuition lia. }
  split; [apply Hmax|]. by rewrite !Hmax, Z.max_comm.
Qed.

Lemma uniqueIdentifiers_Cleanup st now :
  uniqueIdentifiers st -> uniqueIdentifiers (Cleanup st now).
Proof.
  intros Huniq k1 k2 r1 r2 [H1 _]%Cleanup_lookup [H2 _]%Cleanup_lookup.
  by apply Huniq.
Qed.

(** A sweep is invisible to every later lookup: with unique identifiers, a
    request resolves after the sweep to exactly what it resolved to without
    it. *)
Theorem sweep_is_invisible_to_lookup st now r name t' :
  uniqueIdentifiers st ->
  now <= t' ->
  getSessionFromCookie (Cleanup st now) r name t'
  = getSessionFromCookie st r name t'.
Proof.
  intros Huniq Hle.
  destruct (getSessionFromCookie st r name t') as [s|] eqn:Hs.
  - destruct (getSessionFromCookie_Some _ _ _ _ _ Hs)
      as (rec & Hk & Hrec & Hcarries & Hlive).
    rewrite Hrec. apply getSessionFromCookie_unique.
    + by apply uniqueIdentifiers_Cleanup.
    + apply Cleanup_lookup. split; [done|lia].
    + done.
    + done.
  - apply getSessionFromCookie_None. apply getSessionFromCookie_None in Hs.
    destruct Hs as [Hc|[Hd|(sid & Hcarries & Hdead)]]; [by left|by right; left|].
    right; right. exists sid. split; [done|].
    intros k rec [Hk _]%Cleanup_lookup. by apply (Hdead k).
Qed.

(** The loop of [PeriodicCleanup] keeps exactly the records that expire after
    every tick it served, touches neither codecs nor options nor the
    sequence counter, and serves nothing once the quit signal has come. *)
Theorem PeriodicCleanup_keeps_unexpired st events :
  (forall k rec,
      records (PeriodicCleanup st events) !! k = Some rec <->
      records st !! k = Some rec /\
      Forall (fun now => now < ExpiresAt rec) (ticksServed events)) /\
  Codecs (PeriodicCleanup st events) = Codecs st /\
  Options (PeriodicCleanup st events) = Options st /\
  bolthold.sequence (store (PeriodicCleanup st events))
  = bolthold.sequence (store st) /\
  (forall later,
      PeriodicCleanup st (events ++ Quit :: later) = PeriodicCleanup st events).
Proof.
  assert (Hnil : forall k rec,
             records st !! k = Some rec <->
             records st !! k = Some rec /\
             Forall (fun now => now < ExpiresAt rec) []).
  { intros k rec. split; [by split|by intros [Hk _]]. }
  revert st Hnil. induction events as [|[now|] events IH]; intros st Hnil; simpl.
  - by repeat (split; [done|]).
  - destruct (IH (Cleanup st now)) as (Hrecs & Hc & Ho & Hseq & Hquit).
    { intros k rec. split; [by split|by intros [Hk _]]. }
    split; [|by repeat (split; [done|])].
    intros k rec. rewrite Hrecs, Cleanup_lookup, Forall_cons. tauto.
  - by repeat (split; [done|]).
Qed.
End sweeping.

(** ** Invariants of the bucket *)

Section bucket_invariants.
Context {C : Type} `{securecookie.Codec C}.
Import boltstore spec.
Local Open Scope Z_scope.
Implicit Types (st : BoltStore C) (r : http.Request) (s rec : Session)
  (w : http.ResponseWriter) (session : sessions.Session).

Lemma EncodeMulti_Err now name p (codecs : list C) e :
  securecookie.EncodeMulti now name p codecs = Err e ->
  e = ErrNoCodecs \/ e = ErrEncode.
Proof.
  unfold securecookie.EncodeMulti. destruct codecs as [|c cs].
  - intros [= <-]. by left.
  - generalize (c :: cs). intros l. induction l as [|c' l IH]; simpl.
    + intros [= <-]. by right.
    + by destruct (securecookie.Encode c' _ _ _).
Qed.

Lemma records_with_store st m n :
  records (with_store (bolthold.mkStore m n) st) = m.
Proof. reflexivity. Qed.

(** The store after any save: as before, or one key deleted, or the written
    record put under its storage key, with the sequence counter moved to
    that key on a first save. *)
Lemma Save_store st r w session t0 now rnd :
  let out := Save st r w session t0 now rnd in
  saved_store out = st \/
  (exists s,
      getSessionFromCookie st r (sessions.Name session) t0 = Some s /\
      saved_store out
      = with_store
          (bolthold.mkStore (delete (ID s) (records st))
             (bolthold.sequence (store st))) st) \/
  (exists data,
      0 <= sessions.MaxAge (sessions.Opts session) /\
      saved_store out
      = with_store
          (bolthold.mkStore
             (<[sequence_key_of st r session t0
                := written st r session t0 now rnd data]> (records st))
             (match getSessionFromCookie st r (sessions.Name session) t0 with
              | Some _ => bolthold.sequence (store st)
              | None => sequence_key_of st r session t0
              end)) st /\
      (getSessionFromCookie st r (sessions.Name session) t0 = None ->
       records st !! sequence_key_of st r session t0 = None)).
Proof.
  cbv zeta. unfold sequence_key_of, written.
  destruct (decide (sessions.MaxAge (sessions.Opts session) < 0)) as [Hneg|Hage].
  - pose proof (Save_delete_path st r w session t0 now rnd Hneg) as Hout.
    cbv zeta in Hout.
    destruct (getSessionFromCookie _ _ _ _) as [s|]; rewrite Hout.
    + right; left. by exists s.
    + by left.
  - apply Z.nlt_ge in Hage.
    destruct (securecookie.EncodeMulti now (sessions.Name session)
                (securecookie.PValues (sessions.Values session)) (Codecs st))
      as [data|e] eqn:Henc.
    2:{ rewrite (Save_payload_failure _ _ _ _ _ _ _ _ Hage Henc). by left. }
    destruct (getSessionFromCookie st r (sessions.Name session) t0)
      as [s|] eqn:Hs.
    + rewrite (Save_update_path _ _ _ _ _ _ _ _ _ Hage Hs Henc).
      right; right. exists data. split; [done|]. split; [|done].
      by destruct (securecookie.EncodeMulti _ _ (securecookie.PUint64 _) _).
    + rewrite (Save_insert_path _ _ _ _ _ _ _ _ Hage Hs Henc).
      destruct (records st !! _) eqn:Hfree; [by left|].
      right; right. exists data. split; [done|]. split; [|done].
      by destruct (securecookie.EncodeMulti _ _ (securecookie.PUint64 _) _).
Qed.

(** Identifiers stay unique: a save keeps them so, provided the identifier
    drawn for a first save is not in use already, and so does a sweep. *)
Theorem identifiers_stay_unique st r w session t0 now rnd :
  uniqueIdentifiers st ->
  (forall k rec,
      records st !! k = Some rec ->
      Session_ rec <> base32.TrimRight (base32.EncodeToString rnd) "=") ->
  uniqueIdentifiers (saved_store (Save st r w session t0 now rnd)) /\
  (forall t, uniqueIdentifiers (Cleanup st t)).
Proof.
  intros Huniq Hnew. split; [|intros t; by apply uniqueIdentifiers_Cleanup].
  destruct (Save_store st r w session t0 now rnd)
    as [->|[(s & _ & ->)|(data & _ & -> & _)]]; [done| |].
  - intros k1 k2 r1 r2. rewrite !records_with_store.
    intros [_ H1]%lookup_delete_Some [_ H2]%lookup_delete_Some.
    by apply Huniq.
  - unfold sequence_key_of, written.
    destruct (getSessionFromCookie st r (sessions.Name session) t0)
      as [s|] eqn:Hs.
    + destruct (getSessionFromCookie_Some _ _ _ _ _ Hs) as (rec & Hk & Hrec & _).
      assert (Hsid : Session_ s = Session_ rec) by (by rewrite Hrec).
      intros k1 k2 r1 r2. rewrite !records_with_store.
      intros [[<- <-]|[Hn1 H1]]%lookup_insert_Some
             [[<- <-]|[Hn2 H2]]%lookup_insert_Some; simpl; try done.
      * rewrite Hsid. intros Heq. by apply (Huniq (ID s) k2 rec r2).
      * rewrite Hsid. intros Heq. by apply (Huniq k1 (ID s) r1 rec).
      * by apply Huniq.
    + intros k1 k2 r1 r2. rewrite !records_with_store.
      intros [[<- <-]|[Hn1 H1]]%lookup_insert_Some
             [[<- <-]|[Hn2 H2]]%lookup_insert_Some; simpl; try done.
      * intros Heq. by destruct (Hnew k2 r2 H2).
      * intros Heq. by destruct (Hnew k1 r1 H1).
      * by apply Huniq.
Qed.

(** Keys come from the sequence: while the counter has not reached its last
    value, a save never fails with [ErrKeyExists], and after it, as after a
    sweep, every key in use is still at most the counter. *)
Theorem keys_stay_below_sequence st r w session t0 now rnd :
  keysBelowSequence st ->
  (bolthold.sequence (store st) + 1 < 2 ^ 64)%N ->
  saved_err (Save st r w session t0 now rnd) <> Some ErrKeyExists /\
  keysBelowSequence (saved_store (Save st r w session t0 now rnd)) /\
  (forall t, keysBelowSequence (Cleanup st t)).
Proof.
  intros Hinv Hroom.
  assert (Hkey : ((bolthold.sequence (store st) + 1) mod 2 ^ 64
                  = bolthold.sequence (store st) + 1)%N)
    by (by apply N.mod_small).
  assert (Hfree : records st !! (bolthold.sequence (store st) + 1)%N = None).
  { apply eq_None_not_Some. intros Hsome. apply Hinv in Hsome. lia. }
  split; [|split].
  - destruct (decide (sessions.MaxAge (sessions.Opts session) < 0)) as [Hneg|Hage].
    + pose proof (Save_delete_path st r w session t0 now rnd Hneg) as Hout.
      cbv zeta in Hout.
      destruct (getSessionFromCookie _ _ _ _); by rewrite Hout.
    + apply Z.nlt_ge in Hage.
      destruct (securecookie.EncodeMulti now (sessions.Name session)
                  (securecookie.PValues (sessions.Values session)) (Codecs st))
        as [data|e] eqn:Henc.
      2:{ rewrite (Save_payload_failure _ _ _ _ _ _ _ _ Hage Henc). simpl.
          intros [= ->]. by destruct (EncodeMulti_Err _ _ _ _ _ Henc). }
      destruct (getSessionFromCookie st r (sessions.Name session) t0)
        as [s|] eqn:Hs.
      * rewrite (Save_update_path _ _ _ _ _ _ _ _ _ Hage Hs Henc).
        destruct (securecookie.EncodeMulti _ _ (securecookie.PUint64 _) _)
          as [tok|e] eqn:Hid; simpl; [done|].
        intros [= ->]. by destruct (EncodeMulti_Err _ _ _ _ _ Hid).
      * rewrite (Save_insert_path _ _ _ _ _ _ _ _ Hage Hs Henc).
        rewrite Hkey, Hfree.
        destruct (securecookie.EncodeMulti _ _ (securecookie.PUint64 _) _)
          as [tok|e] eqn:Hid; simpl; [done|].
        intros [= ->]. by destruct (EncodeMulti_Err _ _ _ _ _ Hid).
  - destruct (Save_store st r w session t0 now rnd)
      as [->|[(s & _ & ->)|(data & _ & -> & _)]]; [done| |].
    + intros k. rewrite records_with_store.
      intros [x [_ Hk]%lookup_delete_Some].
      apply Hinv. by rewrite Hk.
    + unfold sequence_key_of.
      destruct (getSessionFromCookie st r (sessions.Name session) t0)
        as [s|] eqn:Hs.
      * destruct (getSessionFromCookie_Some _ _ _ _ _ Hs) as (rec & Hk & _).
        intros k. rewrite records_with_store. simpl.
        intros [x [[<- _]|[_ Hx]]%lookup_insert_Some].
        -- apply Hinv. by rewrite Hk.
        -- apply Hinv. by rewrite Hx.
      * intros k. rewrite records_with_store. simpl. rewrite Hkey.
        intros [x [[<- _]|[_ Hx]]%lookup_insert_Some]; [lia|].
        assert (k <= bolthold.sequence (store st))%N; [|lia].
        apply Hinv. by rewrite Hx.
  - intros t k [rec [Hk _]%Cleanup_lookup]. apply Hinv. by rewrite Hk.
Qed.
End bucket_invariants.

(** ** Construction and configuration *)

Section configuration.
Context {C : Type} `{securecookie.Codec C}.
Import boltstore spec.
Local Open Scope Z_scope.
Implicit Types (st : BoltStore C) (r : http.Request) (s rec : Session)
  (w : http.ResponseWriter) (session : sessions.Session).

Lemma New_options st r name now :
  sessions.Opts (resolved_session (New st r name now)) = Options st /\
  sessions.Name (resolved_session (New st r name now)) = name /\
  Codecs (resolved_store (New st r name now))
  = List.map (securecookie.SetMaxAge (sessions.MaxAge (Options st))) (Codecs st) /\
  store (resolved_store (New st r name now)) = store st.
Proof.
  unfold New.
  destruct (getSessionFromCookie _ _ _ _) as [s|];
    [destruct (securecookie.DecodeMulti _ _ _ _ _)|]; done.
Qed.

(** A store without codecs, as the constructor builds it from no key pairs:
    no request resolves, every save with non-negative max-age fails with the
    no-codecs error and changes nothing, and a save with negative max-age
    deletes nothing. *)
Theorem store_without_codecs st r w session t0 now rnd name :
  Codecs st = [] ->
  resolved_session (New st r name now)
  = sessions.mkSession "" ∅ (Options st) true name /\
  (0 <= sessions.MaxAge (sessions.Opts session) ->
   Save st r w session t0 now rnd = mkSaved st w session (Some ErrNoCodecs)) /\
  (sessions.MaxAge (sessions.Opts session) < 0 ->
   saved_store (Save st r w session t0 now rnd) = st /\
   saved_err (Save st r w session t0 now rnd) = None).
Proof.
  intros Hnone.
  assert (Hlookup : forall st' r' name' t',
             Codecs st' = [] -> getSessionFromCookie st' r' name' t' = None).
  { intros st' r' name' t' Hc. unfold getSessionFromCookie. rewrite Hc.
    by destruct (http.Request_Cookie r' name'). }
  split; [|split].
  - apply New_unresolved. apply Hlookup. simpl. by rewrite Hnone.
  - intros Hage. apply Save_payload_failure; [done|]. by rewrite Hnone.
  - intros Hneg.
    pose proof (Save_delete_path st r w session t0 now rnd Hneg) as Hout.
    cbv zeta in Hout. rewrite (Hlookup st _ _ _ Hnone) in Hout.
    by rewrite Hout.
Qed.

(** The defaults of the constructor reach the record and the cookie: a
    session obtained from a newly constructed store has path "/" and a
    max-age of 2592000 seconds, and when it is saved unchanged but for its
    values, the record expires exactly thirty days after the save and the
    cookie carries that path and max-age. *)
Theorem constructed_store_expires_after_thirty_days
    (db : bolthold.Store N Session) (codecs : list C)
    r name t values r' w t0 now rnd :
  let st := NewBoltStore db codecs in
  let session :=
    sessions.with_Values values (resolved_session (New st r name t)) in
  let out := Save (resolved_store (New st r name t)) r' w session t0 now rnd in
  sessions.Path (sessions.Opts session) = "/"%string /\
  sessions.MaxAge (sessions.Opts session) = 2592000 /\
  (saved_err out = None ->
   exists rec c,
     records (saved_store out)
       !! sequence_key_of (resolved_store (New st r name t)) r' session t0
     = Some rec /\
     UpdatedAt rec = now /\
     ExpiresAt rec = now + 30 * 24 * 3600 * 1000000000 /\
     last (saved_response out) = Some c /\
     http.Path c = "/"%string /\ http.MaxAge c = 2592000).
Proof.
  cbv zeta.
  set (st := NewBoltStore db codecs).
  destruct (New_options st r name t) as (Hopts & _).
  set (session := sessions.with_Values values (resolved_session (New st r name t))).
  assert (Ho : sessions.Opts session = Options st) by exact Hopts.
  split; [by rewrite Ho|]. split; [by rewrite Ho|].
  intros Hok.
  assert (Hage : 0 <= sessions.MaxAge (sessions.Opts session)
                 <= time.maxSeconds).
  { rewrite Ho. unfold time.maxSeconds. simpl. unfold defaultMaxAge. lia. }
  destruct (Save_success_store _ _ _ _ _ _ _ (proj1 Hage) Hok)
    as (data & _ & Hrecs & _).
  destruct (Save_success_cookie _ _ _ _ _ _ _ (proj1 Hage) Hok)
    as (key & rec0 & tok & _ & _ & _ & Hresp).
  eexists _, _. rewrite Hrecs, lookup_insert_eq. split; [done|].
  rewrite Hresp. unfold http.SetCookie. rewrite last_snoc.
  unfold written.
  split; [by destruct (getSessionFromCookie _ _ _ _)|].
  split.
  { destruct (getSessionFromCookie _ _ _ _); cbn [ExpiresAt refreshed fresh];
      rewrite expireAfter_in_range by done; rewrite Ho; simpl;
      unfold defaultMaxAge; lia. }
  split; [done|]. cbn [http.Path http.MaxAge sessions.NewCookie].
  by rewrite Ho.
Qed.
End configuration.

(** ** The session identifier *)

Section identifier.
Import spec.

Lemma quintets_length fuel (bits : list bool) :
  length bits <= fuel ->
  length (base32.quintets fuel bits) = (length bits + 4) / 5.
Proof.
  revert bits. induction fuel as [|fuel IH]; intros bits Hfuel.
  - destruct bits; [done|simpl in Hfuel; lia].
  - destruct bits as [|b bits]; [done|].
    cbn [base32.quintets length]. rewrite IH.
    + rewrite length_drop. cbn [length].
      destruct (decide (length bits < 4)) as [Hshort|Hlong].
      * replace (S (length bits) - 5) with 0 by lia.
        change ((0 + 4) / 5) with 0.
        apply Nat.div_unique with (r := length bits); lia.
      * replace (S (length bits) + 4) with (1 * 5 + (S (length bits) - 5 + 4))
          by lia.
        rewrite Nat.div_add_l by lia. lia.
    + rewrite length_drop. cbn [length] in *. lia.
Qed.

Lemma quintets_short fuel (bits : list bool) :
  Forall (fun q => length q <= 5) (base32.quintets fuel bits).
Proof.
  revert bits. induction fuel as [|fuel IH]; intros bits; [constructor|].
  destruct bits as [|b bits]; [constructor|].
  cbn [base32.quintets]. constructor; [|apply IH].
  rewrite length_take. lia.
Qed.

Lemma binary_value_bound (l : list bool) (acc : nat) :
  fold_left (fun acc (b : bool) => 2 * acc + (if b then 1 else 0)) l acc + 1
  <= 2 ^ length l * (acc + 1).
Proof.
  revert acc. induction l as [|b l IH]; intros acc.
  - simpl. lia.
  - cbn [fold_left length]. etrans; [apply IH|].
    rewrite Nat.pow_succ_r'. destruct b; nia.
Qed.

Lemma quintetValue_bound (q : list bool) :
  length q <= 5 -> base32.quintetValue q < 32.
Proof.
  intros Hq. unfold base32.quintetValue.
  pose proof (binary_value_bound (q ++ replicate (5 - length q) false) 0) as Hb.
  rewrite length_app, length_replicate in Hb.
  replace (length q + (5 - length q)) with 5 in Hb by lia.
  change (2 ^ 5 * (0 + 1)) with 32 in Hb. lia.
Qed.

Lemma bits_length (src : list Byte.byte) :
  length (List.concat (List.map base32.bitsOfByte src)) = 8 * length src.
Proof.
  induction src as [|b src IH]; [done|].
  cbn [List.map List.concat]. rewrite length_app, IH.
  unfold base32.bitsOfByte. cbn [List.map length]. lia.
Qed.

Lemma encodeChars_alphabet (src : list Byte.byte) :
  Forall inAlphabet (base32.encodeChars src).
Proof.
  unfold base32.encodeChars.
  apply Forall_forall. intros c Hc.
  apply list_elem_of_In, in_map_iff in Hc as (q & <- & Hq).
  apply nth_In.
  pose proof (quintets_short
                (length (List.concat (List.map base32.bitsOfByte src)))
                (List.concat (List.map base32.bitsOfByte src))) as Hshort.
  rewrite Forall_forall in Hshort.
  apply list_elem_of_In, Hshort, quintetValue_bound in Hq.
  change (length base32.alphabet) with 32. done.
Qed.

Lemma padding_not_in_alphabet c : inAlphabet c -> Ascii.eqb c "=" = false.
Proof.
  unfold inAlphabet. simpl.
  intros Hc. repeat (destruct Hc as [<-|Hc]; [reflexivity|]). done.
Qed.

Lemma dropLeading_padding c (l : list ascii) n :
  base32.dropLeading c (rev (l ++ replicate n c))
  = base32.dropLeading c (rev l).
Proof.
  revert l. induction n as [|n IH]; intros l; simpl.
  - by rewrite app_nil_r.
  - change (l ++ c :: replicate n c) with (l ++ [c] ++ replicate n c).
    rewrite app_assoc, IH, rev_unit. simpl. by rewrite Ascii.eqb_refl.
Qed.

Lemma dropLeading_last c (l : list ascii) :
  Forall (fun x => Ascii.eqb x c = false) l ->
  base32.dropLeading c (rev l) = rev l.
Proof.
  intros Hl. destruct (rev l) as [|x l'] eqn:Hrev; [done|].
  simpl. rewrite Forall_forall in Hl.
  rewrite (Hl x); [done|].
  apply list_elem_of_In, in_rev. rewrite Hrev. by left.
Qed.

Lemma string_of_list_ascii_length (l : list ascii) :
  String.length (string_of_list_ascii l) = length l.
Proof. induction l as [|c l IH]; simpl; congruence. Qed.

(** The identifier made from the random bytes: trimming the padded encoding
    gives exactly the unpadded encoding that the string-keyed store uses; it
    has one character for every five bits, rounded up, all of them from the
    base32 alphabet; so 32 bytes give 52 characters, and no bytes give the
    empty identifier. *)
Theorem identifier_is_unpadded_base32 (rnd : list Byte.byte) :
  base32.TrimRight (base32.EncodeToString rnd) "="
  = base32.RawEncodeToString rnd /\
  String.length (base32.RawEncodeToString rnd) = (8 * length rnd + 4) / 5 /\
  Forall inAlphabet (list_ascii_of_string (base32.RawEncodeToString rnd)) /\
  (length rnd = boltstore.sessionIDLen ->
   String.length (base32.RawEncodeToString rnd) = 52) /\
  (base32.RawEncodeToString rnd = ""%string <-> rnd = []).
Proof.
  assert (Hlen : String.length (base32.RawEncodeToString rnd)
                 = (8 * length rnd + 4) / 5).
  { unfold base32.RawEncodeToString, base32.encodeChars.
    rewrite string_of_list_ascii_length, length_map, quintets_length by done.
    by rewrite bits_length. }
  split; [|split; [done|split; [|split]]].
  - unfold base32.TrimRight, base32.EncodeToString, base32.RawEncodeToString.
    rewrite list_ascii_of_string_of_list_ascii, dropLeading_padding.
    rewrite dropLeading_last, rev_involutive; [done|].
    eapply Forall_impl; [apply encodeChars_alphabet|].
    apply padding_not_in_alphabet.
  - unfold base32.RawEncodeToString.
    rewrite list_ascii_of_string_of_list_ascii. apply encodeChars_alphabet.
  - intros H32. rewrite Hlen, H32. reflexivity.
  - split.
    + intros Hempty. rewrite Hempty in Hlen.
      change (String.length "") with 0 in Hlen.
      destruct rnd as [|b rnd]; [done|]. exfalso.
      assert (1 <= (8 * length (b :: rnd) + 4) / 5) as Hge.
      { apply Nat.div_le_lower_bound; cbn [length]; lia. }
      lia.
    + by intros ->.
Qed.
End identifier.

(** ** The string-keyed store: saving and resuming *)

Section string_keyed_saves.
Context {C : Type} `{securecookie.Codec C}.
Local Open Scope Z_scope.
Implicit Types (m : part000.Store C) (r : http.Request)
  (w : http.ResponseWriter) (session : sessions.Session).

(** A successful save with non-negative max-age, step by step. *)
Lemma part000_Save_success m w session now rnd :
  0 <= sessions.MaxAge (sessions.Opts session) ->
  part000.saved_err (part000.Save m w session now rnd) = None ->
  exists (id data tok : string) (modified : time.Time),
    id = (if decide (sessions.ID session = ""%string)
          then base32.RawEncodeToString rnd else sessions.ID session) /\
    part000.saved_session (part000.Save m w session now rnd)
    = sessions.with_ID id session /\
    securecookie.EncodeMulti now (sessions.Name session)
      (securecookie.PValues (sessions.Values session)) (part000.Codecs m)
    = Ok data /\
    securecookie.EncodeMulti now (sessions.Name session)
      (securecookie.PString id) (part000.Codecs m) = Ok tok /\
    (sessions.Values session !! "modified"%string = Some (GoTime modified) \/
     sessions.Values session !! "modified"%string = None /\ modified = now) /\
    part000.saved_store (part000.Save m w session now rnd)
    = part000.with_store
        (bolthold.mkStore
           (<[id := part000.mkSession id data modified]>
              (bolthold.bucket (part000.store m)))
           (bolthold.sequence (part000.store m))) m /\
    part000.saved_response (part000.Save m w session now rnd)
    = w ++ [sessions.NewCookie now (sessions.Name session) tok
              (sessions.Opts session)].
Proof.
  intros Hage. unfold part000.Save. apply Z.ltb_ge in Hage. rewrite Hage.
  set (id := if decide (sessions.ID session = ""%string)
             then base32.RawEncodeToString rnd else sessions.ID session).
  assert (Hsession :
            (if decide (sessions.ID session = ""%string)
             then sessions.with_ID (base32.RawEncodeToString rnd) session
             else session) = sessions.with_ID id session).
  { unfold id. destruct (decide _); [done|by destruct session]. }
  rewrite Hsession. unfold part000.upsert, bolthold.Upsert.
  cbn [sessions.Values sessions.with_ID sessions.Name sessions.name
         sessions.ID sessions.Opts].
  destruct (sessions.Values session !! "modified"%string) as [[?|?|t]|] eqn:Hm;
    try done.
  - destruct (securecookie.EncodeMulti _ _ (securecookie.PValues _) _)
      as [data|e] eqn:Henc; [|done].
    destruct (securecookie.EncodeMulti _ _ (securecookie.PString _) _)
      as [tok|e] eqn:Hid; [|done].
    intros _. exists id, data, tok, t. repeat split; try done. by left.
  - destruct (securecookie.EncodeMulti _ _ (securecookie.PValues _) _)
      as [data|e] eqn:Henc; [|done].
    destruct (securecookie.EncodeMulti _ _ (securecookie.PString _) _)
      as [tok|e] eqn:Hid; [|done].
    intros _. exists id, data, tok, now. repeat split; try done. by right.
Qed.

(** The string-keyed store makes the round trip: when a save has succeeded
    and the codecs still decode, at the time of the next request, the two
    tokens they made, [New] on a request carrying the issued cookie returns
    the session with is-new = false, the identifier of the save, the saved
    values and the store's options, without error. *)
Theorem part000_saved_session_is_resumed m w session now rnd r' now' c :
  0 <= sessions.MaxAge (sessions.Opts session) ->
  part000.saved_err (part000.Save m w session now rnd) = None ->
  last (part000.saved_response (part000.Save m w session now rnd)) = Some c ->
  http.Request_Cookie r' (sessions.Name session) = Ok (http.Value c) ->
  (forall (tok : string),
      securecookie.EncodeMulti now (sessions.Name session)
        (securecookie.PString
           (sessions.ID
              (part000.saved_session (part000.Save m w session now rnd))))
        (part000.Codecs m) = Ok tok ->
      securecookie.DecodeMulti now' (sessions.Name session) tok
        securecookie.KString (part000.Codecs m)
      = Ok (sessions.ID
              (part000.saved_session (part000.Save m w session now rnd)))) ->
  (forall (data : string),
      securecookie.EncodeMulti now (sessions.Name session)
        (securecookie.PValues (sessions.Values session)) (part000.Codecs m)
      = Ok data ->
      securecookie.DecodeMulti now' (sessions.Name session) data
        securecookie.KValues (part000.Codecs m)
      = Ok (sessions.Values session)) ->
  part000.New (part000.saved_store (part000.Save m w session now rnd)) r'
    (sessions.Name session) now'
  = (sessions.mkSession
       (sessions.ID
          (part000.saved_session (part000.Save m w session now rnd)))
       (sessions.Values session) (part000.Options m) false
       (sessions.Name session), None).
Proof.
  intros Hage Hok Hlast Hreq Hid Hvalues.
  destruct (part000_Save_success m w session now rnd Hage Hok)
    as (id & data & tok & modified & _ & Hsess & Henc & Htok & _ & -> & Hresp).
  rewrite Hsess in Hid |- *. cbn [sessions.ID sessions.with_ID] in Hid |- *.
  rewrite Hresp, last_snoc in Hlast. injection Hlast as <-. simpl in Hreq.
  unfold part000.New. rewrite Hreq, part000_New_blank.
  cbn [part000.Codecs part000.with_store part000.Options].
  rewrite (Hid tok Htok).
  unfold part000.load, bolthold.Get.
  cbn [part000.store part000.with_store bolthold.bucket sessions.ID
         sessions.with_ID spec.blank sessions.Name sessions.name
         part000.Codecs].
  rewrite lookup_insert_eq. cbn [part000.Data part000.setID].
  rewrite (Hvalues data Henc). done.
Qed.

(** A reserved value "modified" that is not a time aborts the save: the
    invalid-modified error is returned, nothing is stored and no cookie is
    set. *)
Theorem part000_invalid_modified_aborts m w session now rnd v :
  0 <= sessions.MaxAge (sessions.Opts session) ->
  sessions.Values session !! "modified"%string = Some v ->
  (forall t, v <> GoTime t) ->
  part000.saved_err (part000.Save m w session now rnd)
  = Some ErrInvalidModified /\
  part000.saved_store (part000.Save m w session now rnd) = m /\
  part000.saved_response (part000.Save m w session now rnd) = w.
Proof.
  intros Hage Hm Hv. unfold part000.Save. apply Z.ltb_ge in Hage.
  rewrite Hage. unfold part000.upsert.
  destruct (decide (sessions.ID session = ""%string));
    cbn [sessions.Values sessions.with_ID]; rewrite Hm;
    destruct v as [?|?|t]; try done; by destruct (Hv t).
Qed.

(** A successful save writes exactly one record, under the session's
    identifier: an identifier the session already has is kept, an empty one
    is replaced by the encoding of the random bytes; the record's
    modification time is the session's "modified" value if it has one, else
    the time of the save; every other record and the sequence counter are
    untouched. *)
Theorem part000_save_upserts_one_record m w session now rnd :
  0 <= sessions.MaxAge (sessions.Opts session) ->
  part000.saved_err (part000.Save m w session now rnd) = None ->
  exists rec,
    let id :=
      sessions.ID (part000.saved_session (part000.Save m w session now rnd)) in
    (sessions.ID session <> ""%string -> id = sessions.ID session) /\
    (sessions.ID session = ""%string -> id = base32.RawEncodeToString rnd) /\
    bolthold.bucket
      (part000.store (part000.saved_store (part000.Save m w session now rnd)))
      !! id = Some rec /\
    part000.ID rec = id /\
    (forall t, sessions.Values session !! "modified"%string = Some (GoTime t) ->
               part000.Modified rec = t) /\
    (sessions.Values session !! "modified"%string = None ->
     part000.Modified rec = now) /\
    (forall k, k <> id ->
       bolthold.bucket
         (part000.store
            (part000.saved_store (part000.Save m w session now rnd))) !! k
       = bolthold.bucket (part000.store m) !! k) /\
    bolthold.sequence
      (part000.store (part000.saved_store (part000.Save m w session now rnd)))
    = bolthold.sequence (part000.store m).
Proof.
  intros Hage Hok.
  destruct (part000_Save_success m w session now rnd Hage Hok)
    as (id & data & tok & modified & Hid & -> & _ & _ & Hmod & -> & _).
  exists (part000.mkSession id data modified).
  cbn [sessions.ID sessions.with_ID part000.store part000.with_store
         bolthold.bucket bolthold.sequence part000.ID part000.Modified].
  split; [intros Hne; rewrite Hid; by destruct (decide _)|].
  split; [intros He; rewrite Hid; by destruct (decide _)|].
  split; [by rewrite lookup_insert_eq|]. split; [done|].
  split; [intros t Ht; destruct Hmod as [Hm|[Hm _]]; congruence|].
  split; [intros Hnone; destruct Hmod as [Hm|[_ Hm]]; congruence|].
  split; [intros k Hne; by rewrite lookup_insert_ne|done].
Qed.

(** Logout of a stored session, then its cookie again: the record is deleted
    and the deletion cookie written without error, and a request that still
    carries the identifier gets a session with is-new = true and no values,
    that keeps the identifier, and no error. *)
Theorem part000_logout_then_new_session m w session now rnd r' name' now' rec :
  sessions.MaxAge (sessions.Opts session) < 0 ->
  bolthold.bucket (part000.store m) !! sessions.ID session = Some rec ->
  part000.saved_err (part000.Save m w session now rnd) = None /\
  (exists c,
      part000.saved_response (part000.Save m w session now rnd) = w ++ [c] /\
      http.Value c = ""%string /\
      http.MaxAge c = sessions.MaxAge (sessions.Opts session)) /\
  bolthold.bucket
    (part000.store (part000.saved_store (part000.Save m w session now rnd)))
    !! sessions.ID session = None /\
  (forall cookie,
      http.Request_Cookie r' name' = Ok cookie ->
      securecookie.DecodeMulti now' name' cookie securecookie.KString
        (part000.Codecs m) = Ok (sessions.ID session) ->
      part000.New (part000.saved_store (part000.Save m w session now rnd))
        r' name' now'
      = (sessions.mkSession (sessions.ID session) ∅ (part000.Options m) true
           name', None)).
Proof.
  intros Hneg Hrec. rewrite (part000_Save_delete_path _ _ _ _ _ Hneg), Hrec.
  cbn [part000.saved_err part000.saved_response part000.saved_store
         part000.store part000.with_store bolthold.bucket].
  split; [done|]. split; [by eexists|].
  split; [apply lookup_delete_eq|].
  intros cookie Hc Hd.
  rewrite (part000_New_not_found _ r' name' now' cookie (sessions.ID session));
    [done|done|done|].
  cbn [part000.store part000.with_store bolthold.bucket].
  apply lookup_delete_eq.
Qed.
End string_keyed_saves.

(** ** The further properties on the scenarios *)

Section further_scenarios.
Import boltstore spec scenario.
Local Open Scope Z_scope.

Lemma uniqueIdentifiers_singleton (st : BoltStore plain.PlainCodec) k rec :
  records st = {[ k := rec ]} -> uniqueIdentifiers st.
Proof.
  intros Hst k1 k2 r1 r2. rewrite Hst.
  intros [<- _]%lookup_singleton_Some [<- _]%lookup_singleton_Some _. done.
Qed.

Lemma records_st1 : records st1 = {[ 1%N := rec1 ]}.
Proof. reflexivity. Qed.

Lemma unique_st1 : uniqueIdentifiers st1.
Proof. exact (uniqueIdentifiers_singleton st1 1%N rec1 records_st1). Qed.

Lemma carries_req1 now :
  carries codecs req1 "sid" now "ABC".
Proof. exists "s3:sidABC"%string. split; reflexivity. Qed.

Lemma saved_record_resolves_until_deadline_witness :
  saved_err (Save st0 reqNone [] session1 0 0 rnd) = None /\
  uniqueIdentifiers stSaved /\
  exists rec,
    records stSaved !! 1%N = Some rec /\
    ExpiresAt rec = hour /\
    (carries codecs reqA "sid" 5 (Session_ rec) ->
     (5 < ExpiresAt rec ->
      getSessionFromCookie stSaved reqA "sid" 5 = Some (setID 1 rec)) /\
     (ExpiresAt rec <= 5 -> getSessionFromCookie stSaved reqA "sid" 5 = None)).
Proof.
  assert (H1 : saved_err (Save st0 reqNone [] session1 0 0 rnd) = None)
    by (vm_compute; reflexivity).
  assert (H2 : uniqueIdentifiers stSaved).
  { apply (uniqueIdentifiers_singleton stSaved 1%N
             (mkSession 0 idA aliceData 0 0 hour)).
    vm_compute. reflexivity. }
  split; [exact H1|]. split; [exact H2|].
  exact (saved_record_resolves_until_deadline st0 reqNone [] session1 0 0 rnd
           reqA "sid" 5 ltac:(vm_compute; split; discriminate) H1 H2).
Defined.

Lemma live_record_is_resumed_witness :
  records st1 !! 1%N = Some rec1 /\ 5 < ExpiresAt rec1 /\
  resolved_session (New st1 req1 "sid" 5)
  = sessions.mkSession "ABC" alice options false "sid" /\
  resolved_err (New st1 req1 "sid" 5) = None.
Proof.
  assert (H1 : records st1 !! 1%N = Some rec1) by reflexivity.
  assert (H2 : 5 < ExpiresAt rec1) by reflexivity.
  split; [exact H1|]. split; [exact H2|].
  exact (live_record_is_resumed st1 req1 "sid" 5 1%N rec1 alice
           unique_st1 H1 H2 (carries_req1 5)
           ltac:(vm_compute; reflexivity)).
Defined.

Lemma undecodable_payload_gives_new_session_witness :
  securecookie.DecodeMulti 5 "sid" "garbled" securecookie.KValues codecs
  = Err ErrDecode /\
  resolved_session (New stGarbled req1 "sid" 5)
  = sessions.mkSession "" ∅ options true "sid" /\
  resolved_err (New stGarbled req1 "sid" 5) = None /\
  records (resolved_store (New stGarbled req1 "sid" 5)) !! 1%N
  = Some (mkSession 0 "ABC" "garbled" 0 0 hour).
Proof.
  assert (H1 : securecookie.DecodeMulti 5 "sid" "garbled" securecookie.KValues
                 codecs = Err ErrDecode) by (vm_compute; reflexivity).
  split; [exact H1|].
  exact (undecodable_payload_gives_new_session stGarbled req1 "sid" 5 1%N
           (mkSession 0 "ABC" "garbled" 0 0 hour) ErrDecode
           (uniqueIdentifiers_singleton stGarbled 1%N _ eq_refl)
           eq_refl eq_refl (carries_req1 5) H1).
Defined.

Lemma logout_then_new_session_witness :
  getSessionFromCookie st1 req1 "sid" 5 = Some (setID 1 rec1) /\
  records (saved_store (Save st1 req1 [] sessionLogout 5 10 rnd)) !! 1%N = None /\
  (carries codecs req1 "sid" 20 "ABC" ->
   resolved_session
     (New (saved_store (Save st1 req1 [] sessionLogout 5 10 rnd)) req1 "sid" 20)
   = sessions.mkSession "" ∅ options true "sid").
Proof.
  assert (H1 : getSessionFromCookie st1 req1 "sid" 5 = Some (setID 1 rec1))
    by (vm_compute; reflexivity).
  pose proof (logout_then_new_session st1 req1 [] sessionLogout 5 10 rnd
                (setID 1 rec1) 20 ltac:(vm_compute; reflexivity) H1 unique_st1)
    as (Hgone & _ & _ & Hnew).
  split; [exact H1|]. split; [exact Hgone|].
  exact (Hnew req1 "sid"%string).
Defined.

Lemma sweep_is_invisible_to_lookup_witness :
  getSessionFromCookie (Cleanup st1 10) req1 "sid" 20
  = getSessionFromCookie st1 req1 "sid" 20.
Proof.
  exact (sweep_is_invisible_to_lookup st1 10 req1 "sid" 20 unique_st1
           ltac:(vm_compute; discriminate)).
Defined.

Lemma identifiers_stay_unique_witness :
  uniqueIdentifiers (saved_store (Save st1 reqNone [] session1 0 0 rnd)).
Proof.
  refine (proj1 (identifiers_stay_unique st1 reqNone [] session1 0 0 rnd
                   unique_st1 _)).
  intros k rec. rewrite records_st1.
  intros [_ <-]%lookup_singleton_Some. discriminate.
Defined.

Lemma keys_stay_below_sequence_witness :
  saved_err (Save st1 reqNone [] session1 0 0 rnd) <> Some ErrKeyExists /\
  keysBelowSequence (saved_store (Save st1 reqNone [] session1 0 0 rnd)).
Proof.
  refine ((fun H => conj (proj1 H) (proj1 (proj2 H)))
            (keys_stay_below_sequence st1 reqNone [] session1 0 0 rnd _ _)).
  - intros k. rewrite records_st1.
    intros [x [<- _]%lookup_singleton_Some]. reflexivity.
  - reflexivity.
Defined.

Lemma store_without_codecs_witness :
  Save stNoCodecs reqNone [] session1 0 0 rnd
  = mkSaved stNoCodecs [] session1 (Some ErrNoCodecs).
Proof.
  exact (proj1 (proj2 (store_without_codecs stNoCodecs reqNone [] session1
                         0 0 rnd "sid" eq_refl))
           ltac:(vm_compute; discriminate)).
Defined.

Lemma constructed_store_expires_after_thirty_days_witness :
  let st := NewBoltStore (bolthold.mkStore ∅ 0) codecs in
  let session :=
    sessions.with_Values alice (resolved_session (New st reqNone "sid" 0)) in
  let out :=
    Save (resolved_store (New st reqNone "sid" 0)) reqNone [] session 0 0 rnd in
  saved_err out = None /\
  exists rec c,
    records (saved_store out) !! 1%N = Some rec /\
    UpdatedAt rec = 0 /\
    ExpiresAt rec = 2592000000000000 /\
    last (saved_response out) = Some c /\
    http.Path c = "/"%string /\ http.MaxAge c = 2592000.
Proof.
  cbv zeta.
  assert (H1 : saved_err
                 (Save (resolved_store
                          (New (NewBoltStore (bolthold.mkStore ∅ 0) codecs)
                             reqNone "sid" 0)) reqNone []
                    (sessions.with_Values alice
                       (resolved_session
                          (New (NewBoltStore (bolthold.mkStore ∅ 0) codecs)
                             reqNone "sid" 0))) 0 0 rnd) = None)
    by (vm_compute; reflexivity).
  split; [exact H1|].
  exact (proj2 (proj2 (constructed_store_expires_after_thirty_days
                         (bolthold.mkStore ∅ 0) codecs reqNone "sid" 0 alice
                         reqNone [] 0 0 rnd)) H1).
Defined.

Lemma identifier_is_unpadded_base32_witness :
  length rnd = sessionIDLen /\
  String.length (base32.RawEncodeToString rnd) = 52%nat.
Proof.
  assert (H1 : length rnd = sessionIDLen) by reflexivity.
  split; [exact H1|].
  exact (proj1 (proj2 (proj2 (proj2 (identifier_is_unpadded_base32 rnd)))) H1).
Defined.

Lemma part000_saved_session_is_resumed_witness :
  part000.saved_err (part000.Save m0 [] session1 0 rnd) = None /\
  part000.New (part000.saved_store (part000.Save m0 [] session1 0 rnd)) reqA
    "sid" 7
  = (sessions.mkSession idA alice options false "sid", None).
Proof.
  assert (H1 : part000.saved_err (part000.Save m0 [] session1 0 rnd) = None)
    by (vm_compute; reflexivity).
  split; [exact H1|].
  refine (part000_saved_session_is_resumed m0 [] session1 0 rnd reqA 7
            (sessions.NewCookie 0 "sid" ("s3:sid" +:+ idA) options)
            ltac:(vm_compute; discriminate) H1
            ltac:(vm_compute; reflexivity) ltac:(vm_compute; reflexivity) _ _).
  - intros tok Htok. vm_compute in Htok. injection Htok as <-.
    vm_compute. reflexivity.
  - intros data Hdata. vm_compute in Hdata. injection Hdata as <-.
    vm_compute. reflexivity.
Defined.

Lemma part000_invalid_modified_aborts_witness :
  part000.saved_err (part000.Save m0 [] sessionBadModified 0 rnd)
  = Some ErrInvalidModified /\
  part000.saved_store (part000.Save m0 [] sessionBadModified 0 rnd) = m0 /\
  part000.saved_response (part000.Save m0 [] sessionBadModified 0 rnd) = [].
Proof.
  refine (part000_invalid_modified_aborts m0 [] sessionBadModified 0 rnd
            (GoString "yesterday") ltac:(vm_compute; discriminate)
            ltac:(vm_compute; reflexivity) _).
  intros t. discriminate.
Defined.

Lemma part000_save_upserts_one_record_witness :
  part000.saved_err (part000.Save m1 [] sessionModified 9 rnd) = None /\
  exists rec,
    bolthold.bucket
      (part000.store (part000.saved_store (part000.Save m1 [] sessionModified 9 rnd)))
      !! "ABC"%string = Some rec /\
    part000.Modified rec = 42.
Proof.
  assert (H1 : part000.saved_err (part000.Save m1 [] sessionModified 9 rnd)
               = None) by (vm_compute; reflexivity).
  split; [exact H1|].
  destruct (part000_save_upserts_one_record m1 [] sessionModified 9 rnd
              ltac:(vm_compute; discriminate) H1)
    as (rec & Hkept & _ & Hrec & _ & Hmod & _).
  exists rec. rewrite (Hkept ltac:(discriminate)) in Hrec.
  split; [exact Hrec|]. apply Hmod. vm_compute. reflexivity.
Defined.

Lemma part000_logout_then_new_session_witness :
  part000.saved_err (part000.Save m1 [] sessionLogout 9 rnd) = None /\
  part000.New (part000.saved_store (part000.Save m1 [] sessionLogout 9 rnd))
    req1 "sid" 12
  = (sessions.mkSession "ABC" ∅ options true "sid", None).
Proof.
  pose proof (part000_logout_then_new_session m1 [] sessionLogout 9 rnd req1
                "sid" 12 (part000.mkSession "ABC" aliceData 0)
                ltac:(vm_compute; reflexivity) ltac:(vm_compute; reflexivity))
    as (Hok & _ & _ & Hnew).
  split; [exact Hok|].
  exact (Hnew "s3:sidABC"%string ltac:(vm_compute; reflexivity)
           ltac:(vm_compute; reflexivity)).
Defined.
End further_scenarios.
